(** * STUBE Cube demo (src/stube.jsx): a shallow embedding and its properties

    The component is a React function component.  Its handlers are closures
    over the state values of the render that created them; the calls they
    make to the state setters take effect at the next render.  A handler is
    therefore embedded as a function from the render's state to the list of
    calls it makes, in program order, and [commit] folds those calls into the
    state of the next render.

    Numbers.  [Date.now()] and the score are integers and are modelled in
    [Z]; pointer coordinates, angles and lengths are binary64 doubles, as in
    the source, with the operations and roundings of IEEE 754.  Where a
    statement is about where a double lies, it is about the rational number
    the double is ([Geometry.exact]). *)

From Stdlib Require Import ZArith QArith Lia Lqa List Permutation Sorted.
From Stdlib Require Import DecimalString Floats.
From Stdlib Require Uint63.
From stdpp Require Import gmap strings list.

Set Warnings "-inexact-float".

Local Open Scope string_scope.
Local Open Scope Z_scope.

(** ** JavaScript values used by the component *)

Module Js.

(** The faults met: the two the code raises by itself, and the DOM's
    [NotFoundError]. *)
Inductive exn :=
| TypeError (what : string)
| ReferenceError (name : string)
| NotFoundError (what : string).

Inductive result (A : Type) :=
| Ok (a : A)
| Throw (e : exn).
Arguments Ok {A} a.
Arguments Throw {A} e.

Definition is_ok {A} (r : result A) : bool :=
  match r with Ok _ => true | Throw _ => false end.

(** Truthiness of a number: [0] is the only falsy integer; [0], [-0] and
    [NaN] are the falsy doubles. *)
Definition truthy_Z (n : Z) : bool := negb (Z.eqb n 0).
Definition truthy_num (x : float) : bool :=
  negb (PrimFloat.is_zero x || PrimFloat.is_nan x).

(** Truthiness of a value that is [null]/[undefined] ([None]) or a number. *)
Definition truthy_optZ (o : option Z) : bool :=
  match o with Some n => truthy_Z n | None => false end.

(** Truthiness of a value that is [null] or a string: the empty string is
    falsy. *)
Definition truthy_optstring (o : option string) : bool :=
  match o with
  | Some s => negb (String.eqb s "")
  | None => false
  end.

(** Truthiness of a value that is [null] or an object. *)
Definition truthy_optobj {A} (o : option A) : bool :=
  match o with Some _ => true | None => false end.

(** [`${n}`] for an integer [n]. *)
Definition string_of_Z (n : Z) : string := NilZero.string_of_int (Z.to_int n).

(** Code that mutates a state [S] and either returns or faults; what it
    assigned before a fault stays assigned. *)
Definition comp (S A : Type) : Type := S -> S * result A.

Section Comp.
Context {S : Type}.

Definition ret {A} (a : A) : comp S A := fun s => (s, Ok a).
Definition bind {A B} (m : comp S A) (k : A -> comp S B) : comp S B :=
  fun s =>
    match m s with
    | (s', Ok a) => k a s'
    | (s', Throw e) => (s', Throw e)
    end.
Definition eval {A} (r : result A) : comp S A := fun s => (s, r).
Definition read {A} (f : S -> A) : comp S A := fun s => (s, Ok (f s)).
Definition assign (f : S -> S) : comp S unit := fun s => (f s, Ok tt).

(** [xs.forEach(f)] *)
Fixpoint forEach {A} (f : A -> comp S unit) (xs : list A) : comp S unit :=
  match xs with
  | [] => ret tt
  | x :: xs' => bind (f x) (fun _ => forEach f xs')
  end.
End Comp.

Notation "v <- m ;; k" := (bind m (fun v => k))
  (at level 100, m at next level, k at level 200, right associativity).
Notation "m ;; k" := (bind m (fun _ => k))
  (at level 100, k at level 200, right associativity).

End Js.

(** ** Component state, setters and the store *)

(** A leaderboard record as displayed: [{ id: doc.id, ...doc.data() }]. *)
Record entry := Entry {
  id : string;
  entry_userId : string;
  entry_score : Z;
  entry_timestamp : Z
}.

(** The Firestore handle held in the [db] state. *)
Inductive firestore := Firestore.

(** The object passed to [addDoc]; the timestamp is the [serverTimestamp()]
    sentinel, filled in by the server. *)
Record new_doc := NewDoc {
  doc_userId : string;
  doc_score : Z
}.

Record app_state := AppState {
  db : option firestore;
  userId : option string;
  isAuthReady : bool;
  leaderboardData : list entry;
  score : Z;
  startTime : option Z;
  isPlaying : bool;
  message : string
}.

(** What a handler does, in program order. *)
Inductive effect :=
| SetLeaderboardData (v : list entry)
| SetScore (v : Z)
| SetStartTime (v : Z)
| SetIsPlaying (v : bool)
| SetMessage (v : string)
| AddDoc (path : string) (d : new_doc)
| ConsoleLog (what : string)
| ConsoleError (what : string).

Definition apply_effect (s : app_state) (e : effect) : app_state :=
  match e with
  | SetLeaderboardData v =>
      AppState (db s) (userId s) (isAuthReady s) v (score s) (startTime s)
               (isPlaying s) (message s)
  | SetScore v =>
      AppState (db s) (userId s) (isAuthReady s) (leaderboardData s) v
               (startTime s) (isPlaying s) (message s)
  | SetStartTime v =>
      AppState (db s) (userId s) (isAuthReady s) (leaderboardData s) (score s)
               (Some v) (isPlaying s) (message s)
  | SetIsPlaying v =>
      AppState (db s) (userId s) (isAuthReady s) (leaderboardData s) (score s)
               (startTime s) v (message s)
  | SetMessage v =>
      AppState (db s) (userId s) (isAuthReady s) (leaderboardData s) (score s)
               (startTime s) (isPlaying s) v
  | AddDoc _ _ | ConsoleLog _ | ConsoleError _ => s
  end.

(** The state of the render that follows a handler's calls. *)
Definition commit (s : app_state) (effs : list effect) : app_state :=
  fold_left apply_effect effs s.

(** [useState] initial values. *)
Definition initial_state : app_state :=
  AppState None None false [] 0 None false "".

(** Position of a call in a handler's calls. *)
Definition called_at (effs : list effect) (i : nat) (e : effect) : Prop :=
  effs !! i = Some e.

Definition is_store_write (e : effect) : bool :=
  match e with AddDoc _ _ => true | _ => false end.

(** ** Session controller: [startGame], [endGame] *)

Module Session.

(** [startGame]; [now] is the value of [Date.now()]. *)
Definition startGame (now : Z) : list effect :=
  [ SetScore 0;
    SetStartTime now;
    SetIsPlaying true;
    SetMessage "Game started! Rotate the cube." ].

Definition game_over_message (shown : Z) : string :=
  "Game Over! Your score: " +:+ Js.string_of_Z shown
    +:+ ". Submit to leaderboard!".

(** [endGame], a closure over the render state [s]; [now] is the value
    [Date.now()] would return.  [if (startTime)] is a truthiness test: it
    fails on [null] and on [0]. *)
Definition endGame (s : app_state) (now : Z) : list effect :=
  [ SetIsPlaying false;
    SetMessage (game_over_message (score s)) ]
  ++ (if Js.truthy_optZ (startTime s) then
        match startTime s with
        | Some t0 =>
            let timeElapsed := (now - t0) / 1000 in
            [ SetScore (timeElapsed * 10) ]
        | None => [] (* not reached: the test has passed *)
        end
      else []).

End Session.

(** ** Leaderboard sync: [submitScore] *)

Module Submit.

(** How the store answers [addDoc]: the promise resolves or rejects with an
    error carrying a message. *)
Inductive write_outcome :=
| Resolved
| Rejected (error_message : string).

Definition rejection_message : string :=
  "Cannot submit score. Not authenticated or score is 0.".

Section WithAppId.
Variable appId : string.

Definition leaderboard_path : string :=
  "artifacts/" +:+ appId +:+ "/public/data/leaderboard".

(** [submitScore]; [w] is how the store answers the write, if one is made.
    [!userId] holds for [null] and for the empty string. *)
Definition submitScore (s : app_state) (w : write_outcome) : list effect :=
  if negb (Js.truthy_optobj (db s))
     || negb (Js.truthy_optstring (userId s))
     || Z.eqb (score s) 0
  then [ SetMessage rejection_message ]
  else
    match userId s with
    | None => [] (* not reached: the test has passed *)
    | Some uid =>
        AddDoc leaderboard_path (NewDoc uid (score s))
        :: match w with
           | Resolved =>
               [ SetMessage "Score submitted successfully!";
                 ConsoleLog "Score submitted:" ]
           | Rejected m =>
               [ ConsoleError "Error submitting score:";
                 SetMessage ("Failed to submit score: " +:+ m) ]
           end
    end.
End WithAppId.

End Submit.

(** ** Leaderboard sync: the [onSnapshot] handler *)

Module Leaderboard.

(** A document of the snapshot: [doc.id] and the fields of [doc.data()]. *)
Record snapshot_doc := SnapshotDoc {
  doc_id : string;
  data_userId : string;
  data_score : Z;
  data_timestamp : Z
}.

(** [doc => ({ id: doc.id, ...doc.data() })] *)
Definition to_entry (d : snapshot_doc) : entry :=
  Entry (doc_id d) (data_userId d) (data_score d) (data_timestamp d).

(** [(a, b) => b.score - a.score] *)
Definition by_score_desc (a b : entry) : Z := entry_score b - entry_score a.

(** [Array.prototype.sort(comparefn)].  The language requires the sort to
    be stable, and with a consistent comparator its result is determined by
    that; it is embedded as the stable insertion sort, which the engine's
    sort agrees with on every input.  [x] goes before [y] when
    [comparefn x y <= 0]. *)
Section ArraySort.
Context {A : Type} (comparefn : A -> A -> Z).

Fixpoint sort_insert (x : A) (l : list A) : list A :=
  match l with
  | [] => [x]
  | y :: l' =>
      if comparefn x y <=? 0 then x :: y :: l' else y :: sort_insert x l'
  end.

Definition array_sort (l : list A) : list A := fold_right sort_insert [] l.
End ArraySort.


(** The success callback of [onSnapshot]. *)
Definition onSnapshot (docs : list snapshot_doc) : list effect :=
  let data := map to_entry docs in
  let data := array_sort by_score_desc data in
  [ SetLeaderboardData data;
    ConsoleLog "Leaderboard data updated:" ].


Definition has_score (v : Z) (e : entry) : bool := entry_score e =? v.

(** Descending by score. *)
Definition score_ge (a b : entry) : Prop := entry_score b <= entry_score a.

(** The snapshot of the spec's example: scores 50, 90, 90. *)
Definition tie_example : list snapshot_doc :=
  [ SnapshotDoc "a" "u1" 50 0; SnapshotDoc "b" "u2" 90 0; SnapshotDoc "c" "u3" 90 0 ].

End Leaderboard.

(** ** Geometry builder: the 3x3x3 construction loop *)

Module Geometry.
Local Open Scope float_scope.

Record Vector3 := Vec3 { vx : float; vy : float; vz : float }.

Inductive material := lemonYellow | limeGreen | babyBlue | black.

(** [new THREE.MeshPhongMaterial({ color })] *)
Definition color (m : material) : Z :=
  match m with
  | lemonYellow => 0xFFF700
  | limeGreen => 0x32CD32
  | babyBlue => 0x89CFF0
  | black => 0x1A1A1A
  end.

Record BoxGeometry := Box { width : float; height : float; depth : float }.

Record Mesh := MkMesh {
  geometry : BoxGeometry;
  materials : list material;
  position : Vector3
}.

(** A loop counter as a number. *)
Definition num (i : nat) : float :=
  PrimFloat.of_uint63 (Uint63.of_Z (Z.of_nat i)).

Section Builder.
Variables cubeSize gap : float.

Definition totalCubeDim : float := (cubeSize + gap) * 3 - gap.
Definition startPos : float := - totalCubeDim / 2 + cubeSize / 2.

(** The body of the innermost loop, up to the [push]. *)
Definition cubelet_at (x y z : nat) : Mesh :=
  let geometry := Box cubeSize cubeSize cubeSize in
  let materials :=
    [ babyBlue; babyBlue; lemonYellow; lemonYellow; limeGreen; limeGreen ] in
  MkMesh geometry materials
         (Vec3 (startPos + num x * (cubeSize + gap))
               (startPos + num y * (cubeSize + gap))
               (startPos + num z * (cubeSize + gap))).

(** [for (let i = 0; i < n; i++) body], threading the array being built. *)
Definition for_upto {S : Type} (n : nat) (body : nat -> S -> S) (s : S) : S :=
  fold_left (fun acc i => body i acc) (seq 0 n) s.

Definition cubelets : list Mesh :=
  for_upto 3 (fun x =>
    for_upto 3 (fun y =>
      for_upto 3 (fun z acc => (acc ++ [cubelet_at x y z])%list))) [].
End Builder.

(** The index in [cubelets] of the cubelet pushed at loop counters [x],
    [y], [z]. *)
Definition cubelet_index (x y z : nat) : nat := (9 * x + 3 * y + z)%nat.

(** The grid coordinates in the order the loops visit them. *)
Definition grid : list (nat * nat * nat) :=
  x ← seq 0 3; y ← seq 0 3; z ← seq 0 3; [(x, y, z)].

(** The constants of the source: [cubeSize = 1], [gap = 0.05]. *)
Definition source_cubeSize : float := 1.
Definition source_gap : float := 0.05.

(** The cells the source builds. *)
Definition source_cubelets : list Mesh := cubelets source_cubeSize source_gap.

Inductive axis := AxisX | AxisY | AxisZ.

Definition coord (a : axis) (p : Vector3) : float :=
  match a with AxisX => vx p | AxisY => vy p | AxisZ => vz p end.

(** The rational number a finite double is; [finite] tells the others
    apart. *)
Definition exact (x : float) : Q :=
  match Prim2SF x with
  | S754_finite negative m e =>
      ((if negative then - 1 else 1) * inject_Z (Zpos m) * Qpower 2 e)%Q
  | _ => 0%Q
  end.

Definition finite (x : float) : bool :=
  match Prim2SF x with
  | S754_zero _ | S754_finite _ _ _ => true
  | _ => false
  end.

(** Where a cell's centre is on an axis, as a rational. *)
Definition centre (a : axis) (c : Mesh) : Q := exact (coord a (position c)).

(** Square of the centre-to-centre distance. *)
Definition dist2 (c c' : Mesh) : Q :=
  ((centre AxisX c - centre AxisX c') * (centre AxisX c - centre AxisX c')
   + (centre AxisY c - centre AxisY c') * (centre AxisY c - centre AxisY c')
   + (centre AxisZ c - centre AxisZ c') * (centre AxisZ c - centre AxisZ c'))%Q.

(** [c'] is the mirror image of [c] in the point with all three coordinates
    [m]. *)
Definition mirrored_about (m : Q) (c c' : Mesh) : Prop :=
  forall a, (centre a c + centre a c' == 2 * m)%Q.

(** One unit in the last place of the doubles between 1 and 2. *)
Definition ulp1 : Q := 1 # 4503599627370496.

(** The double the source's [cubeSize + gap] is. *)
Definition source_pitch : Q := exact (source_cubeSize + source_gap).

End Geometry.

(** ** Gesture tracker: [onMouseDown], [onMouseMove], [onMouseUp] *)

Module Gesture.
Local Open Scope float_scope.
Import Js.

Record Touch := MkTouch { touch_clientX : float; touch_clientY : float }.

(** The events the handlers are registered for.  A mouse event has
    [clientX] and [clientY] and no [touches]; a touch event has a
    [touches] list and no [clientX]/[clientY]. *)
Inductive event :=
| MouseEvent (clientX clientY : float)
| TouchEvent (touches : list Touch).

(** Property reads; [None] is [undefined]. *)
Definition clientX (e : event) : option float :=
  match e with MouseEvent x _ => Some x | TouchEvent _ => None end.
Definition clientY (e : event) : option float :=
  match e with MouseEvent _ y => Some y | TouchEvent _ => None end.
Definition touches (e : event) : option (list Touch) :=
  match e with MouseEvent _ _ => None | TouchEvent ts => Some ts end.

(** The faults of [e.touches[0].clientX]: [e.touches] is [undefined], or
    the list is empty and [e.touches[0]] is. *)
Definition no_touches : exn :=
  TypeError "Cannot read properties of undefined (reading '0')".
Definition no_first_touch : exn :=
  TypeError "Cannot read properties of undefined (reading 'clientX')".

(** [e.touches[0].<field>] *)
Definition first_touch (field : Touch -> float) (e : event) : result float :=
  match touches e with
  | None => Throw no_touches
  | Some ts =>
      match ts !! 0%nat with
      | None => Throw no_first_touch
      | Some t => Ok (field t)
      end
  end.

(** [a || b] where [a] is a number or [undefined]; [b] is only evaluated
    when [a] is falsy. *)
Definition or_else (a : option float) (b : result float) : result float :=
  match a with
  | Some x => if truthy_num x then Ok x else b
  | None => b
  end.

(** [e.clientX || e.touches[0].clientX] and its [Y] twin. *)
Definition pointer_x (e : event) : result float :=
  or_else (clientX e) (first_touch touch_clientX e).
Definition pointer_y (e : event) : result float :=
  or_else (clientY e) (first_touch touch_clientY e).

Record point := Point { x : float; y : float }.

(** The variables the handlers close over, and the orientation of the cube
    group ([cubeGroupRef.current.rotation]). *)
Record state := State {
  isDragging : bool;
  previousMousePosition : point;
  rotation_x : float;
  rotation_y : float
}.

(** State at the end of the mount effect. *)
Definition initial : state := State false (Point 0 0) 0 0.

(** A handler runs on [state] and either returns or faults. *)
Definition handler (A : Type) : Type := comp state A.

Definition set_isDragging (b : bool) (s : state) : state :=
  State b (previousMousePosition s) (rotation_x s) (rotation_y s).
Definition set_previousMousePosition (p : point) (s : state) : state :=
  State (isDragging s) p (rotation_x s) (rotation_y s).
Definition add_rotation_y (d : float) (s : state) : state :=
  State (isDragging s) (previousMousePosition s) (rotation_x s) (rotation_y s + d).
Definition add_rotation_x (d : float) (s : state) : state :=
  State (isDragging s) (previousMousePosition s) (rotation_x s + d) (rotation_y s).

Definition rotationSpeed : float := 0.005.

Definition onMouseDown (e : event) : handler unit :=
  assign (set_isDragging true) ;;
  px <- eval (pointer_x e) ;;
  py <- eval (pointer_y e) ;;
  assign (set_previousMousePosition (Point px py)).

Definition onMouseMove (e : event) : handler unit :=
  dragging <- read isDragging ;;
  if negb dragging then ret tt else
  clientX <- eval (pointer_x e) ;;
  clientY <- eval (pointer_y e) ;;
  prev <- read previousMousePosition ;;
  let deltaMove := Point (clientX - x prev) (clientY - y prev) in
  assign (add_rotation_y (x deltaMove * rotationSpeed)) ;;
  assign (add_rotation_x (y deltaMove * rotationSpeed)) ;;
  assign (set_previousMousePosition (Point clientX clientY)).

(** [onMouseUp] takes no parameter: the event it is called with is not
    read. *)
Definition onMouseUp (_ : event) : handler unit :=
  assign (set_isDragging false).

(** The browser calls the listener and goes on whether or not it faulted. *)
Definition dispatch (h : handler unit) (s : state) : state := fst (h s).
Definition outcome (h : handler unit) (s : state) : result unit := snd (h s).

(** The handler returns on [e], whatever the state it runs in. *)
Definition total_on (h : event -> handler unit) (e : event) : Prop :=
  forall st, is_ok (outcome (h e) st) = true.

(** A drag: a press, the move samples in order, and the release. *)
Definition run_drag (s : state) (press : event) (moves : list event)
    (release : event) : state :=
  let s := dispatch (onMouseDown press) s in
  let s := fold_left (fun s e => dispatch (onMouseMove e) s) moves s in
  dispatch (onMouseUp release) s.

(** The events on which the coordinate extraction succeeds. *)
Definition accepted (e : event) : bool :=
  match e with
  | MouseEvent cx cy => truthy_num cx && truthy_num cy
  | TouchEvent ts => match ts with [] => false | _ :: _ => true end
  end.

(** The pointer position an event carries: its own coordinates for a mouse
    event, those of the first touch point for a touch event. *)
Definition position_of (e : event) : point :=
  match e with
  | MouseEvent cx cy => Point cx cy
  | TouchEvent ts =>
      match ts with
      | t :: _ => Point (touch_clientX t) (touch_clientY t)
      | [] => Point 0 0
      end
  end.

(** The angle [r] after the samples [ps] have each added their delta
    against the sample before ([prev] for the first), in the order and with
    the roundings of the move handler. *)
Fixpoint turned (c : point -> float) (prev : point) (ps : list point)
    (r : float) : float :=
  match ps with
  | [] => r
  | p :: ps' => turned c p ps' (r + (c p - c prev) * rotationSpeed)
  end.

(** The largest finite double. *)
Definition max_value : float := 0x1.fffffffffffffp+1023.

End Gesture.

(** ** Scene host: the mount effect and its cleanup *)

Module Scene.
Import Js.

Inductive target := Window | CurrentMount.
Inductive listener_fn := handleResize | onMouseDown | onMouseMove | onMouseUp.

Record listener := Listener {
  on : target;
  type : string;
  callback : listener_fn
}.

#[global] Instance target_eq_dec : EqDecision target.
Proof. solve_decision. Defined.
#[global] Instance listener_fn_eq_dec : EqDecision listener_fn.
Proof. solve_decision. Defined.
#[global] Instance listener_eq_dec : EqDecision listener.
Proof. solve_decision. Defined.
#[global] Instance material_eq_dec : EqDecision Geometry.material.
Proof. solve_decision. Defined.

(** What an identifier of the effect can be bound to; [VOpaque] stands for
    the objects and functions the cleanup has no use for. *)
Inductive value :=
| VWindow
| VElement
| VScene
| VCamera
| VRenderer
| VMaterial (m : Geometry.material)
| VMaterials (ms : list Geometry.material)
| VGeometry (n : nat)
| VMesh (n : nat)
| VMeshes
| VLight
| VNumber (q : float)
| VBoolean (b : bool)
| VPoint
| VOpaque
| VFunction (f : listener_fn).

(** The graphics backend and the DOM, as far as the effect touches them. *)
Inductive call :=
| CAddEventListener (l : listener)
| CRemoveEventListener (l : listener)
| CAppendChild
| CRemoveChild
| CDispose (v : value)
| CClear.

Record host := Host {
  listeners : list listener;
  canvas_attached : bool;
  renderer_live : bool;
  geometries_live : list nat;
  materials_live : list Geometry.material;
  scene_children : nat;
  calls : list call
}.

Definition unmounted : host := Host [] false false [] [] 0 [].

Definition logged (c : call) (h : host) : list call := (calls h ++ [c])%list.

(** Lexical environment: the bindings an identifier resolves through. *)
Definition lookup (env : gmap string value) (name : string) : comp host value :=
  eval (match env !! name with
        | Some v => Ok v
        | None => Throw (ReferenceError name)
        end).

Definition as_target (v : value) : result target :=
  match v with
  | VWindow => Ok Window
  | VElement => Ok CurrentMount
  | _ => Throw (TypeError "addEventListener is not a function")
  end.

Definition as_function (v : value) : result listener_fn :=
  match v with
  | VFunction f => Ok f
  | _ => Throw (TypeError "not a listener")
  end.

(** [t.addEventListener(ty, f)]: a listener already on the list is not
    added twice. *)
Definition addEventListener (t : value) (ty : string) (f : value) : comp host unit :=
  t <- eval (as_target t) ;;
  f <- eval (as_function f) ;;
  let l := Listener t ty f in
  assign (fun h =>
    Host (if bool_decide (l ∈ listeners h) then listeners h
          else (listeners h ++ [l])%list)
         (canvas_attached h) (renderer_live h) (geometries_live h)
         (materials_live h) (scene_children h) (logged (CAddEventListener l) h)).

(** [t.removeEventListener(ty, f)] *)
Definition removeEventListener (t : value) (ty : string) (f : value) : comp host unit :=
  t <- eval (as_target t) ;;
  f <- eval (as_function f) ;;
  let l := Listener t ty f in
  assign (fun h =>
    Host (List.filter (fun l' => negb (bool_decide (l' = l))) (listeners h))
         (canvas_attached h) (renderer_live h) (geometries_live h)
         (materials_live h) (scene_children h) (logged (CRemoveEventListener l) h)).

(** [currentMount.appendChild(renderer.domElement)] *)
Definition appendChild (parent : value) (renderer : value) : comp host unit :=
  match parent, renderer with
  | VElement, VRenderer =>
      assign (fun h =>
        Host (listeners h) true (renderer_live h) (geometries_live h)
             (materials_live h) (scene_children h) (logged CAppendChild h))
  | _, _ => eval (Throw (TypeError "appendChild is not a function"))
  end.

Definition not_a_child : exn :=
  NotFoundError "Failed to execute 'removeChild' on 'Node': The node to be removed is not a child of this node.".

(** [removeChild] faults when the canvas is not a child of the container. *)
Definition removeChild (parent : value) (renderer : value) : comp host unit :=
  match parent, renderer with
  | VElement, VRenderer =>
      attached <- read canvas_attached ;;
      if attached then
        assign (fun h =>
          Host (listeners h) false (renderer_live h) (geometries_live h)
               (materials_live h) (scene_children h) (logged CRemoveChild h))
      else eval (Throw not_a_child)
  | _, _ => eval (Throw (TypeError "removeChild is not a function"))
  end.

(** [v.dispose()] on a renderer, a geometry or a material. *)
Definition dispose (v : value) : comp host unit :=
  match v with
  | VRenderer =>
      assign (fun h =>
        Host (listeners h) (canvas_attached h) false (geometries_live h)
             (materials_live h) (scene_children h) (logged (CDispose v) h))
  | VGeometry n =>
      assign (fun h =>
        Host (listeners h) (canvas_attached h) (renderer_live h)
             (List.filter (fun n' => negb (Nat.eqb n' n)) (geometries_live h))
             (materials_live h) (scene_children h) (logged (CDispose v) h))
  | VMaterial m =>
      assign (fun h =>
        Host (listeners h) (canvas_attached h) (renderer_live h)
             (geometries_live h)
             (List.filter (fun m' => negb (bool_decide (m' = m))) (materials_live h))
             (scene_children h) (logged (CDispose v) h))
  | _ => eval (Throw (TypeError "dispose is not a function"))
  end.

(** [ms.forEach(mat => mat.dispose())] *)
Definition dispose_each (v : value) : comp host unit :=
  match v with
  | VMaterials ms => forEach (fun m => dispose (VMaterial m)) ms
  | _ => eval (Throw (TypeError "forEach is not a function"))
  end.

(** [scene.clear()] *)
Definition clear (v : value) : comp host unit :=
  match v with
  | VScene =>
      assign (fun h =>
        Host (listeners h) (canvas_attached h) (renderer_live h)
             (geometries_live h) (materials_live h) 0 (logged CClear h))
  | _ => eval (Throw (TypeError "clear is not a function"))
  end.

(** Allocation of the graphics objects. *)
Definition new_renderer : comp host value :=
  assign (fun h =>
    Host (listeners h) (canvas_attached h) true (geometries_live h)
         (materials_live h) (scene_children h) (calls h)) ;;
  ret VRenderer.

Definition new_material (m : Geometry.material) : comp host value :=
  assign (fun h =>
    Host (listeners h) (canvas_attached h) (renderer_live h) (geometries_live h)
         (materials_live h ++ [m])%list (scene_children h) (calls h)) ;;
  ret (VMaterial m).

Definition new_geometry (n : nat) : comp host value :=
  assign (fun h =>
    Host (listeners h) (canvas_attached h) (renderer_live h)
         (geometries_live h ++ [n])%list
         (materials_live h) (scene_children h) (calls h)) ;;
  ret (VGeometry n).

(** [scene.add(obj)] *)
Definition scene_add : comp host unit :=
  assign (fun h =>
    Host (listeners h) (canvas_attached h) (renderer_live h) (geometries_live h)
         (materials_live h) (Datatypes.S (scene_children h)) (calls h)).

(** A binding the effect never reads the content of. *)
Definition opaque (names : list string) : list (string * value) :=
  map (fun n => (n, VOpaque)) names.

(** Identifiers visible from outside the effect: the globals the file uses,
    the imports and constants of the module, and the bindings of the
    component function. *)
Definition outer_env : gmap string value :=
  list_to_map
    (("window", VWindow)
     :: opaque
          [ "console"; "requestAnimationFrame"; "Date"; "Math"; "JSON";
            "React"; "useRef"; "useEffect"; "useState"; "useCallback";
            "THREE"; "initializeApp"; "getAuth"; "signInAnonymously";
            "signInWithCustomToken"; "onAuthStateChanged"; "getFirestore";
            "collection"; "onSnapshot"; "query"; "orderBy"; "limit";
            "addDoc"; "serverTimestamp"; "appId"; "firebaseConfig";
            "initialAuthToken"; "App";
            "mountRef"; "cubeGroupRef"; "db"; "setDb"; "auth"; "setAuth";
            "userId"; "setUserId"; "isAuthReady"; "setIsAuthReady";
            "leaderboardData"; "setLeaderboardData"; "score"; "setScore";
            "startTime"; "setStartTime"; "isPlaying"; "setIsPlaying";
            "message"; "setMessage"; "submitScore"; "startGame"; "endGame" ]).

(** The body of the innermost loop.  Its [const]s live in the block: the
    result is the environment in force inside the block, which the loop
    drops when the iteration ends. *)
Definition loop_body (env : gmap string value) (x y z : nat)
    : comp host (gmap string value) :=
  geometry <- new_geometry (Geometry.cubelet_index x y z) ;;
  let block := <["geometry" := geometry]> env in
  let materials :=
    VMaterials [ Geometry.babyBlue; Geometry.babyBlue;
                 Geometry.lemonYellow; Geometry.lemonYellow;
                 Geometry.limeGreen; Geometry.limeGreen ] in
  let block := <["materials" := materials]> block in
  let block := <["cubelet" := VMesh (Geometry.cubelet_index x y z)]> block in
  ret block.

Definition build_loop (env : gmap string value) : comp host unit :=
  Geometry.for_upto 3 (fun x acc =>
    Geometry.for_upto 3 (fun y acc =>
      Geometry.for_upto 3 (fun z acc =>
        acc ;; _ <- loop_body env x y z ;; ret tt) acc) acc) (ret tt).

(** The scene effect up to its [return]: [None] when the container is
    missing, else the environment the cleanup closure captures. *)
Definition scene_effect (mountRef_current : option value)
    : comp host (option (gmap string value)) :=
  match mountRef_current with
  | None => ret None
  | Some currentMount =>
      let env := <["currentMount" := currentMount]> outer_env in
      let env := <["scene" := VScene]> env in
      let env := <["camera" := VCamera]> env in
      renderer <- new_renderer ;;
      let env := <["renderer" := renderer]> env in
      appendChild currentMount renderer ;;
      lemonYellow <- new_material Geometry.lemonYellow ;;
      let env := <["lemonYellow" := lemonYellow]> env in
      limeGreen <- new_material Geometry.limeGreen ;;
      let env := <["limeGreen" := limeGreen]> env in
      babyBlue <- new_material Geometry.babyBlue ;;
      let env := <["babyBlue" := babyBlue]> env in
      black <- new_material Geometry.black ;;
      let env := <["black" := black]> env in
      let env := <["cubeSize" := VNumber Geometry.source_cubeSize]> env in
      let env := <["gap" := VNumber Geometry.source_gap]> env in
      let env :=
        <["totalCubeDim" :=
            VNumber (Geometry.totalCubeDim Geometry.source_cubeSize
                                           Geometry.source_gap)]> env in
      let env :=
        <["startPos" :=
            VNumber (Geometry.startPos Geometry.source_cubeSize
                                       Geometry.source_gap)]> env in
      let env := <["cubelets" := VMeshes]> env in
      build_loop env ;;
      scene_add ;;
      let env := <["ambientLight" := VLight]> env in
      scene_add ;;
      let env := <["directionalLight" := VLight]> env in
      scene_add ;;
      let env := <["animate" := VOpaque]> env in
      let env := <["handleResize" := VFunction handleResize]> env in
      window <- lookup env "window" ;;
      addEventListener window "resize" (VFunction handleResize) ;;
      let env := <["isDragging" := VBoolean false]> env in
      let env := <["previousMousePosition" := VPoint]> env in
      let env := <["onMouseDown" := VFunction onMouseDown]> env in
      let env := <["onMouseMove" := VFunction onMouseMove]> env in
      let env := <["onMouseUp" := VFunction onMouseUp]> env in
      addEventListener currentMount "mousedown" (VFunction onMouseDown) ;;
      addEventListener currentMount "mousemove" (VFunction onMouseMove) ;;
      addEventListener currentMount "mouseup" (VFunction onMouseUp) ;;
      addEventListener currentMount "mouseleave" (VFunction onMouseUp) ;;
      addEventListener currentMount "touchstart" (VFunction onMouseDown) ;;
      addEventListener currentMount "touchmove" (VFunction onMouseMove) ;;
      addEventListener currentMount "touchend" (VFunction onMouseUp) ;;
      ret (Some env)
  end.

(** [obj.removeEventListener(ty, fn)] with both identifiers resolved in the
    closure's environment. *)
Definition remove_listener (env : gmap string value)
    (obj ty fn : string) : comp host unit :=
  t <- lookup env obj ;;
  f <- lookup env fn ;;
  removeEventListener t ty f.

(** The function the effect returns. *)
Definition cleanup (env : gmap string value) : comp host unit :=
  remove_listener env "window" "resize" "handleResize" ;;
  remove_listener env "currentMount" "mousedown" "onMouseDown" ;;
  remove_listener env "currentMount" "mousemove" "onMouseMove" ;;
  remove_listener env "currentMount" "mouseup" "onMouseUp" ;;
  remove_listener env "currentMount" "mouseleave" "onMouseUp" ;;
  remove_listener env "currentMount" "touchstart" "onMouseDown" ;;
  remove_listener env "currentMount" "touchmove" "onMouseMove" ;;
  remove_listener env "currentMount" "touchend" "onMouseUp" ;;
  currentMount <- lookup env "currentMount" ;;
  renderer <- lookup env "renderer" ;;
  removeChild currentMount renderer ;;
  renderer <- lookup env "renderer" ;;
  dispose renderer ;;
  geometry <- lookup env "geometry" ;;
  dispose geometry ;;
  materials <- lookup env "materials" ;;
  dispose_each materials ;;
  scene <- lookup env "scene" ;;
  clear scene.

(** Mount, then unmount: the host after both and how the cleanup ended.
    With no container there is no cleanup to run. *)
Definition mount_then_unmount (mountRef_current : option value)
    : host * result unit :=
  match scene_effect mountRef_current unmounted with
  | (h, Ok (Some env)) => cleanup env h
  | (h, Ok None) => (h, Ok tt)
  | (h, Throw e) => (h, Throw e)
  end.

(** The listeners the effect registers, in order. *)
Definition registered : list listener :=
  [ Listener Window "resize" handleResize;
    Listener CurrentMount "mousedown" onMouseDown;
    Listener CurrentMount "mousemove" onMouseMove;
    Listener CurrentMount "mouseup" onMouseUp;
    Listener CurrentMount "mouseleave" onMouseUp;
    Listener CurrentMount "touchstart" onMouseDown;
    Listener CurrentMount "touchmove" onMouseMove;
    Listener CurrentMount "touchend" onMouseUp ].

(** The materials the effect allocates. *)
Definition allocated_materials : list Geometry.material :=
  [ Geometry.lemonYellow; Geometry.limeGreen; Geometry.babyBlue; Geometry.black ].

(** The host once the eight [removeEventListener] calls of the cleanup
    have run. *)
Definition detached (h : host) : host :=
  Host (fold_left (fun ls r => List.filter (fun l' => negb (bool_decide (l' = r))) ls)
                  registered (listeners h))
       (canvas_attached h) (renderer_live h) (geometries_live h)
       (materials_live h) (scene_children h)
       (fold_left (fun acc c => (acc ++ [c])%list)
                  (map CRemoveEventListener registered) (calls h)).

Definition is_detach (c : call) : bool :=
  match c with CRemoveEventListener _ => true | _ => false end.

Definition is_release (c : call) : bool :=
  match c with CRemoveChild | CDispose _ | CClear => true | _ => false end.

End Scene.

(** ** Firebase initialisation and authentication (the first effect) *)

Module Auth.

(** The parsed [__firebase_config]. *)
Inductive firebase_config := FirebaseConfig (raw : string).

(** The calls of the first effect and of its auth callback: the setters
    the handlers above do not use, the two sign-in requests, and the calls
    shared with them.  The [auth] state is written and never read. *)
Inductive call :=
| SetDb (d : firestore)
| SetAuth
| SetUserId (uid : string)
| SetIsAuthReady (b : bool)
| SignInWithCustomToken (token : string)
| SignInAnonymously
| Plain (e : effect).

Definition apply_call (s : app_state) (c : call) : app_state :=
  match c with
  | SetDb d =>
      AppState (Some d) (userId s) (isAuthReady s) (leaderboardData s) (score s)
               (startTime s) (isPlaying s) (message s)
  | SetUserId uid =>
      AppState (db s) (Some uid) (isAuthReady s) (leaderboardData s) (score s)
               (startTime s) (isPlaying s) (message s)
  | SetIsAuthReady b =>
      AppState (db s) (userId s) b (leaderboardData s) (score s)
               (startTime s) (isPlaying s) (message s)
  | Plain e => apply_effect s e
  | SetAuth | SignInWithCustomToken _ | SignInAnonymously => s
  end.

Definition commit_calls (s : app_state) (cs : list call) : app_state :=
  fold_left apply_call cs s.

Definition is_sign_in (c : call) : bool :=
  match c with SignInWithCustomToken _ | SignInAnonymously => true | _ => false end.

(** The body of the effect up to the registration of the auth callback. *)
Definition initialize (firebaseConfig : option firebase_config) : list call :=
  match firebaseConfig with
  | None =>
      [ Plain (ConsoleError "Firebase config is not available. Cannot initialize Firebase.");
        Plain (SetMessage "Error: Firebase configuration missing.") ]
  | Some _ => [ SetDb Firestore; SetAuth ]
  end.

(** Whether the effect went on to register the auth callback. *)
Definition registers_callback (firebaseConfig : option firebase_config) : bool :=
  Js.truthy_optobj firebaseConfig.

(** What follows a sign-in request: its promise resolves, or rejects and the
    [catch] block runs. *)
Definition after_sign_in (done : string) (o : Submit.write_outcome) : list call :=
  match o with
  | Submit.Resolved => [ Plain (ConsoleLog done) ]
  | Submit.Rejected m =>
      [ Plain (ConsoleError "Firebase Auth Error:");
        Plain (SetMessage ("Authentication error: " +:+ m)) ]
  end.

(** The callback given to [onAuthStateChanged]; [user] is the uid of the
    user object or [None] for [null], [o] the outcome of the sign-in it may
    request. *)
Definition onAuthStateChanged (initialAuthToken : option string)
    (user : option string) (o : Submit.write_outcome) : list call :=
  match user with
  | Some uid =>
      [ SetUserId uid;
        SetIsAuthReady true;
        Plain (ConsoleLog "Firebase Auth: User signed in:") ]
  | None =>
      Plain (ConsoleLog "Firebase Auth: No user signed in. Attempting anonymous sign-in or custom token.")
      :: (if Js.truthy_optstring initialAuthToken then
            match initialAuthToken with
            | Some token =>
                SignInWithCustomToken token
                :: after_sign_in "Firebase Auth: Signed in with custom token." o
            | None => [] (* not reached: the test has passed *)
            end
          else
            SignInAnonymously
            :: after_sign_in "Firebase Auth: Signed in anonymously." o)
  end.

End Auth.

(** ** Leaderboard sync: the subscription effect *)

Module Subscription.

(** [if (db && isAuthReady)]: whether the effect subscribes. *)
Definition subscribes (s : app_state) : bool :=
  Js.truthy_optobj (db s) && isAuthReady s.

(** The error callback of [onSnapshot]. *)
Definition onSnapshotError (error_message : string) : list effect :=
  [ ConsoleError "Error fetching leaderboard:";
    SetMessage ("Leaderboard error: " +:+ error_message) ].

End Subscription.

(** ** What the component renders *)

Module View.

(** A line of the leaderboard list: [index + 1], [entry.userId],
    [entry.score]. *)
Record row := Row {
  rank : nat;
  row_userId : string;
  row_score : Z
}.

Record view := MkView {
  score_text : Z;
  user_text : string;
  status_text : string;
  start_button : bool;
  end_button : bool;
  submit_disabled : bool;
  no_scores_note : bool;
  rows : list row
}.

(** The JSX the component returns, as far as it depends on the state. *)
Definition render (s : app_state) : view :=
  MkView
    (score s)
    (match userId s with
     | Some uid => if Js.truthy_optstring (userId s) then uid else "Authenticating..."
     | None => "Authenticating..."
     end)
    (message s)
    (negb (isPlaying s))
    (isPlaying s)
    (negb (Js.truthy_optstring (userId s)) || Z.eqb (score s) 0 || isPlaying s)
    (Nat.eqb (length (leaderboardData s)) 0)
    (imap (fun index e => Row (index + 1) (entry_userId e) (entry_score e))
          (leaderboardData s)).

End View.

(** ** The component as a whole: what can happen after mount *)

Module App.

(** The component's state, and whether the auth callback is registered. *)
Record system := System {
  ui : app_state;
  auth_listening : bool
}.

(** What the outside world can do to a mounted component. *)
Inductive event :=
| AuthState (user : option string) (sign_in : Submit.write_outcome)
| Snapshot (docs : list Leaderboard.snapshot_doc)
| SnapshotError (error_message : string)
| ClickStart (now : Z)
| ClickEnd (now : Z)
| ClickSubmit (w : Submit.write_outcome).

Section WithEnvironment.
Variables (appId : string) (initialAuthToken : option string).

(** The state after the first effect has run. *)
Definition boot (firebaseConfig : option Auth.firebase_config) : system :=
  System (Auth.commit_calls initial_state (Auth.initialize firebaseConfig))
         (Auth.registers_callback firebaseConfig).

(** An auth change needs the callback; a snapshot or its error needs the
    subscription; a click needs its button shown and not disabled. *)
Definition enabled (sys : system) (ev : event) : bool :=
  match ev with
  | AuthState _ _ => auth_listening sys
  | Snapshot _ | SnapshotError _ => Subscription.subscribes (ui sys)
  | ClickStart _ => View.start_button (View.render (ui sys))
  | ClickEnd _ => View.end_button (View.render (ui sys))
  | ClickSubmit _ => negb (View.submit_disabled (View.render (ui sys)))
  end.

Definition fire (sys : system) (ev : event) : system :=
  let s := ui sys in
  System
    (match ev with
     | AuthState user o =>
         Auth.commit_calls s (Auth.onAuthStateChanged initialAuthToken user o)
     | Snapshot docs => commit s (Leaderboard.onSnapshot docs)
     | SnapshotError m => commit s (Subscription.onSnapshotError m)
     | ClickStart now => commit s (Session.startGame now)
     | ClickEnd now => commit s (Session.endGame s now)
     | ClickSubmit w => commit s (Submit.submitScore appId s w)
     end)
    (auth_listening sys).

(** Runs the events in order; [None] when one of them cannot happen. *)
Fixpoint run (sys : system) (evs : list event) : option system :=
  match evs with
  | [] => Some sys
  | ev :: evs' => if enabled sys ev then run (fire sys ev) evs' else None
  end.

Inductive reachable (firebaseConfig : option Auth.firebase_config) : system -> Prop :=
| reach_boot : reachable firebaseConfig (boot firebaseConfig)
| reach_fire sys ev :
    reachable firebaseConfig sys ->
    enabled sys ev = true ->
    reachable firebaseConfig (fire sys ev).

End WithEnvironment.

(** A session: a user is reported, a game is played for 7.4 seconds, a
    snapshot arrives. *)
Definition sample_session : list event :=
  [ AuthState (Some "uid-1") Submit.Resolved;
    ClickStart 1700000000000;
    ClickEnd 1700000007400;
    Snapshot Leaderboard.tie_example ].

Definition sample_config : option Auth.firebase_config :=
  Some (Auth.FirebaseConfig "{}").

(** What every state reached from [boot firebaseConfig] satisfies. *)
Definition invariant (firebaseConfig : option Auth.firebase_config)
    (sys : system) : Prop :=
  let s := ui sys in
  auth_listening sys = Auth.registers_callback firebaseConfig
  /\ Js.truthy_optobj (db s) = Auth.registers_callback firebaseConfig
  /\ (isPlaying s = true -> exists t0, startTime s = Some t0)
  /\ (forall uid, userId s = Some uid ->
        isAuthReady s = true /\ Js.truthy_optobj (db s) = true)
  /\ (isAuthReady s = true -> exists uid, userId s = Some uid)
  /\ StronglySorted Leaderboard.score_ge (leaderboardData s)
  /\ (leaderboardData s <> [] -> Subscription.subscribes s = true)
  /\ (10 | score s).

End App.

(** ** Gesture tracker: the stream of pointer events *)

Module Pointer.
Import Gesture.

(** What the container's listeners receive: [mousedown]/[touchstart],
    [mousemove]/[touchmove], and [mouseup]/[mouseleave]/[touchend]. *)
Inductive input :=
| Down (e : event)
| Moved (e : event)
| Up (e : event).

Definition deliver (s : state) (i : input) : state :=
  match i with
  | Down e => dispatch (onMouseDown e) s
  | Moved e => dispatch (onMouseMove e) s
  | Up e => dispatch (onMouseUp e) s
  end.

Definition play (s : state) (inputs : list input) : state :=
  fold_left deliver inputs s.

Definition is_down (i : input) : bool :=
  match i with Down _ => true | _ => false end.

(** The position the deltas of a drag are measured from: that of the press
    when the press handler accepts it, else the one stored before. *)
Definition drag_origin (s : state) (press : event) : point :=
  if accepted press then position_of press else previousMousePosition s.

(** The last sample the move handler takes in, [origin] when there is
    none. *)
Definition last_taken (moves : list event) (origin : point) : point :=
  List.last (map position_of (List.filter accepted moves)) origin.

End Pointer.

(** ** Geometry builder: the boxes of the cells *)

Module Extent.
Import Geometry.
Local Open Scope Q_scope.

(** The side of the box along an axis. *)
Definition side (a : axis) (b : BoxGeometry) : float :=
  match a with AxisX => width b | AxisY => height b | AxisZ => depth b end.

(** A box geometry is centred on its mesh's position. *)
Definition box_min (a : axis) (c : Mesh) : Q :=
  centre a c - exact (side a (geometry c)) / 2.
Definition box_max (a : axis) (c : Mesh) : Q :=
  centre a c + exact (side a (geometry c)) / 2.

(** The side of the whole cube, as the source computes it. *)
Definition source_extent : Q :=
  exact (totalCubeDim source_cubeSize source_gap).

End Extent.

(** The environment the cleanup closure of a mounted scene captures. *)
Definition closure_env : gmap string Scene.value :=
  match snd (Scene.scene_effect (Some Scene.VElement) Scene.unmounted) with
  | Js.Ok (Some env) => env
  | _ => ∅
  end.

(** * Properties *)

(** ** Session controller *)

Section SessionFacts.
Import Session.

(** The [if (startTime)] test passes exactly on a start time other than 0. *)
Lemma truthy_startTime (s : app_state) :
  Js.truthy_optZ (startTime s) = true <->
  exists t0, startTime s = Some t0 /\ t0 <> 0.
Proof.
  unfold Js.truthy_optZ, Js.truthy_Z. destruct (startTime s) as [t|].
  - rewrite negb_true_iff, Z.eqb_neq. split.
    + intros H. exists t. auto.
    + intros (t0 & [= ->] & H). exact H.
  - split; [discriminate | intros (t0 & [=] & _)].
Qed.

Lemma endGame_recorded (s : app_state) (now t0 : Z) :
  startTime s = Some t0 -> t0 <> 0 ->
  endGame s now =
    [ SetIsPlaying false;
      SetMessage (game_over_message (score s));
      SetScore ((now - t0) / 1000 * 10) ].
Proof.
  intros Hs Ht. unfold endGame. rewrite Hs. cbn.
  unfold Js.truthy_Z. apply Z.eqb_neq in Ht. rewrite Ht. reflexivity.
Qed.

Lemma endGame_unrecorded (s : app_state) (now : Z) :
  Js.truthy_optZ (startTime s) = false ->
  endGame s now =
    [ SetIsPlaying false; SetMessage (game_over_message (score s)) ].
Proof. intros H. unfold endGame. rewrite H. reflexivity. Qed.

(** C7. Whatever the state before (idle or already playing), [startGame]
    sets the score to 0, records the current time as the start time and
    sets the playing flag; it also replaces the status message and touches
    nothing else. *)
Theorem startGame_reentrant_reset (s : app_state) (now : Z) :
  let s' := commit s (startGame now) in
  score s' = 0
  /\ startTime s' = Some now
  /\ isPlaying s' = true
  /\ message s' = "Game started! Rotate the cube."
  /\ db s' = db s /\ userId s' = userId s
  /\ isAuthReady s' = isAuthReady s
  /\ leaderboardData s' = leaderboardData s.
Proof. cbn. repeat split. Qed.




(** C8, as stated, fails: ending while idle with no start time recorded
    replaces the status message, so the state is not left unchanged. *)
Lemma endGame_idle_not_noop :
  isPlaying initial_state = false
  /\ startTime initial_state = None
  /\ message (commit initial_state (endGame initial_state 5000))
     = "Game Over! Your score: 0. Submit to leaderboard!"
  /\ commit initial_state (endGame initial_state 5000) <> initial_state.
Proof. repeat split; try reflexivity. discriminate. Qed.

(** C8, amended. Ending while idle with no start time recorded leaves the
    score, the start time and the playing flag as they were (and the other
    state too), and replaces the status message by the game-over message
    showing the current score. *)
Theorem endGame_idle_keeps_session (s : app_state) (now : Z) :
  isPlaying s = false ->
  startTime s = None ->
  let s' := commit s (endGame s now) in
  score s' = score s
  /\ startTime s' = startTime s
  /\ isPlaying s' = isPlaying s
  /\ message s' = game_over_message (score s)
  /\ db s' = db s /\ userId s' = userId s
  /\ isAuthReady s' = isAuthReady s
  /\ leaderboardData s' = leaderboardData s.
Proof.
  intros Hp Hs. cbn zeta. rewrite endGame_unrecorded by (rewrite Hs; reflexivity).
  cbn. rewrite Hp. repeat split.
Qed.

Lemma endGame_idle_keeps_session_witness :
  let s' := commit initial_state (endGame initial_state 5000) in
  score s' = score initial_state
  /\ startTime s' = startTime initial_state
  /\ isPlaying s' = isPlaying initial_state
  /\ message s' = game_over_message (score initial_state)
  /\ db s' = db initial_state /\ userId s' = userId initial_state
  /\ isAuthReady s' = isAuthReady initial_state
  /\ leaderboardData s' = leaderboardData initial_state.
Proof.
  apply (endGame_idle_keeps_session initial_state 5000); reflexivity.
Defined.

(** C10. The game-over message [endGame] sets shows the score of the
    render it was created in, not the score it derives: the message is the
    second call, a [setScore] call (when there is one) is the third and
    carries the time-derived value, and for a game begun via [startGame]
    the message shows 0. *)
Theorem endGame_message_shows_previous_score (s s0 : app_state) (t0 now : Z) :
  let effs := endGame s now in
  called_at effs 1 (SetMessage (game_over_message (score s)))
  /\ (forall i m, called_at effs i (SetMessage m) <-> i = 1%nat /\ m = game_over_message (score s))
  /\ (forall i v, called_at effs i (SetScore v) <->
        i = 2%nat /\ exists t, startTime s = Some t /\ t <> 0 /\ v = (now - t) / 1000 * 10)
  /\ message (commit s effs) = game_over_message (score s)
  /\ (let s1 := commit s0 (startGame t0) in
      message (commit s1 (endGame s1 now))
      = "Game Over! Your score: 0. Submit to leaderboard!"
      /\ (t0 <> 0 -> score (commit s1 (endGame s1 now)) = (now - t0) / 1000 * 10)).
Proof.
  cbn zeta. unfold called_at.
  destruct (Js.truthy_optZ (startTime s)) eqn:Htr.
  - apply truthy_startTime in Htr as (t & Hs & Ht).
    rewrite (endGame_recorded s now t Hs Ht).
    split; [reflexivity|]. split; [|split; [|split]].
    + intros i m. split.
      * destruct i as [|[|[|i]]]; cbn; try discriminate.
        intros [= <-]. auto.
      * intros [-> ->]. reflexivity.
    + intros i v. split.
      * destruct i as [|[|[|i]]]; cbn; try discriminate.
        intros [= <-]. split; [reflexivity|]. exists t. auto.
      * intros (-> & t' & Hs' & _ & ->). rewrite Hs in Hs'.
        injection Hs' as <-. reflexivity.
    + reflexivity.
    + split.
      * unfold endGame. cbn. destruct (Js.truthy_Z t0); reflexivity.
      * intros H0. rewrite (endGame_recorded _ now t0); [reflexivity|reflexivity|exact H0].
  - rewrite (endGame_unrecorded s now Htr).
    split; [reflexivity|]. split; [|split; [|split]].
    + intros i m. split.
      * destruct i as [|[|[|i]]]; cbn; try discriminate.
        intros [= <-]. auto.
      * intros [-> ->]. reflexivity.
    + intros i v. split.
      * destruct i as [|[|[|i]]]; cbn; discriminate.
      * intros (_ & t & Hs & Ht & _).
        assert (Js.truthy_optZ (startTime s) = true) as Habs
          by (apply truthy_startTime; eauto).
        congruence.
    + reflexivity.
    + split.
      * unfold endGame. cbn. destruct (Js.truthy_Z t0); reflexivity.
      * intros H0. rewrite (endGame_recorded _ now t0); [reflexivity|reflexivity|exact H0].
Qed.

End SessionFacts.

(** ** Leaderboard sync *)

Section SubmitFacts.
Import Submit.

(** C4. A submit attempt with the identity absent ([null], or the empty
    string, which the test treats alike) or with score 0 makes a single
    call, the one that sets the rejection message: nothing is written to
    the store.  The right disjunct does not mention the identity. *)
Theorem submitScore_rejects_without_write
    (appId : string) (s : app_state) (w : write_outcome) :
  Js.truthy_optstring (userId s) = false \/ score s = 0 ->
  let effs := submitScore appId s w in
  effs = [ SetMessage rejection_message ]
  /\ (forall path d, AddDoc path d ∉ effs)
  /\ existsb is_store_write effs = false
  /\ message (commit s effs) = rejection_message.
Proof.
  intros H. cbn zeta.
  assert (submitScore appId s w = [ SetMessage rejection_message ]) as ->.
  { unfold submitScore. destruct H as [H | H].
    - rewrite H. cbn. rewrite orb_true_r. reflexivity.
    - rewrite H. cbn. rewrite orb_true_r. reflexivity. }
  repeat split; try reflexivity.
  intros path d Hin. apply list_elem_of_singleton in Hin. discriminate.
Qed.

Lemma submitScore_rejects_without_write_witness :
  let s := AppState (Some Firestore) (Some "uid-1") true [] 0 (Some 17) false "" in
  let effs := submitScore "stube-cube-public-app" s Resolved in
  effs = [ SetMessage rejection_message ]
  /\ (forall path d, AddDoc path d ∉ effs)
  /\ existsb is_store_write effs = false
  /\ message (commit s effs) = rejection_message.
Proof.
  apply (submitScore_rejects_without_write "stube-cube-public-app"
           (AppState (Some Firestore) (Some "uid-1") true [] 0 (Some 17) false "")
           Resolved).
  right. reflexivity.
Defined.

(** The other branch, for contrast: with a store handle, an identity and a
    nonzero score the write is attempted. *)
Example submitScore_writes :
  submitScore "app" (AppState (Some Firestore) (Some "uid-1") true [] 70 (Some 17) false "")
              Resolved
  = [ AddDoc "artifacts/app/public/data/leaderboard" (NewDoc "uid-1" 70);
      SetMessage "Score submitted successfully!";
      ConsoleLog "Score submitted:" ].
Proof. reflexivity. Qed.

End SubmitFacts.

Section LeaderboardFacts.
Import Leaderboard.

Lemma sort_insert_perm (x : entry) (l : list entry) :
  Permutation (sort_insert by_score_desc x l) (x :: l).
Proof.
  induction l as [|y l IH]; cbn; [reflexivity|].
  destruct (by_score_desc x y <=? 0); [reflexivity|].
  rewrite IH. apply perm_swap.
Qed.


Lemma sort_insert_sorted (x : entry) (l : list entry) :
  StronglySorted score_ge l ->
  StronglySorted score_ge (sort_insert by_score_desc x l).
Proof.
  induction 1 as [|y l Hl IH Hy]; cbn.
  - repeat constructor.
  - destruct (by_score_desc x y <=? 0) eqn:E.
    + apply Z.leb_le in E. unfold by_score_desc in E.
      constructor; [constructor; assumption|].
      constructor; [unfold score_ge; lia|].
      eapply List.Forall_impl; [|exact Hy].
      unfold score_ge. intros; lia.
    + apply Z.leb_gt in E. unfold by_score_desc in E.
      constructor; [exact IH|].
      eapply Permutation_Forall;
        [symmetry; apply sort_insert_perm|].
      constructor; [unfold score_ge; lia|exact Hy].
Qed.

Lemma array_sort_sorted (l : list entry) :
  StronglySorted score_ge (array_sort by_score_desc l).
Proof.
  induction l as [|x l IH]; cbn; [constructor|].
  apply sort_insert_sorted, IH.
Qed.

(** Stability: the entries of any one score keep their relative order. *)
Lemma sort_insert_stable (v : Z) (x : entry) (l : list entry) :
  List.filter (has_score v) (sort_insert by_score_desc x l)
  = List.filter (has_score v) (x :: l).
Proof.
  induction l as [|y l IH]; [reflexivity|].
  cbn [sort_insert].
  destruct (by_score_desc x y <=? 0) eqn:E; [reflexivity|].
  apply Z.leb_gt in E. unfold by_score_desc in E.
  cbn [List.filter] in *. rewrite IH.
  unfold has_score.
  destruct (entry_score x =? v) eqn:Ex; [|reflexivity].
  apply Z.eqb_eq in Ex.
  destruct (entry_score y =? v) eqn:Ey; [|reflexivity].
  apply Z.eqb_eq in Ey. lia.
Qed.

Lemma array_sort_stable (v : Z) (l : list entry) :
  List.filter (has_score v) (array_sort by_score_desc l)
  = List.filter (has_score v) l.
Proof.
  induction l as [|x l IH]; [reflexivity|].
  cbn [array_sort fold_right]. rewrite sort_insert_stable.
  cbn [List.filter]. fold (array_sort by_score_desc l). rewrite IH.
  reflexivity.
Qed.

(** Descending order and stability determine the result: a list with both
    properties relative to [l] is the one [array_sort] returns, whatever
    algorithm produced it. *)
Lemma sorted_stable_unique (l1 l2 : list entry) :
  StronglySorted score_ge l1 ->
  StronglySorted score_ge l2 ->
  (forall v, List.filter (has_score v) l1 = List.filter (has_score v) l2) ->
  l1 = l2.
Proof.
  intros H1. revert l2.
  induction H1 as [|a l1 Hs1 IH Ha]; intros l2 H2 Hf.
  - destruct l2 as [|b l2]; [reflexivity|].
    specialize (Hf (entry_score b)). cbn in Hf. unfold has_score in Hf.
    rewrite Z.eqb_refl in Hf. discriminate.
  - destruct H2 as [|b l2 Hs2 Hb].
    + specialize (Hf (entry_score a)). cbn in Hf. unfold has_score in Hf.
      rewrite Z.eqb_refl in Hf. discriminate.
    + assert (entry_score a = entry_score b) as Hab.
      { apply Z.le_antisymm.
        - assert (In a (List.filter (has_score (entry_score a)) (b :: l2)))
            as Hin.
          { rewrite <- Hf. cbn. unfold has_score. rewrite Z.eqb_refl.
            left. reflexivity. }
          apply filter_In in Hin as [[<- | Hin] _]; [lia|].
          rewrite List.Forall_forall in Hb. apply Hb in Hin. exact Hin.
        - assert (In b (List.filter (has_score (entry_score b)) (a :: l1)))
            as Hin.
          { rewrite Hf. cbn. unfold has_score. rewrite Z.eqb_refl.
            left. reflexivity. }
          apply filter_In in Hin as [[<- | Hin] _]; [lia|].
          rewrite List.Forall_forall in Ha. apply Ha in Hin. exact Hin. }
      assert (a = b /\ forall v, List.filter (has_score v) l1
                                 = List.filter (has_score v) l2) as [-> Hf'].
      { assert (forall v, has_score v a = has_score v b) as Hsame
          by (intros v; unfold has_score; rewrite Hab; reflexivity).
        split.
        - specialize (Hf (entry_score a)). cbn [List.filter] in Hf.
          rewrite <- Hsame in Hf.
          replace (has_score (entry_score a) a) with true in Hf
            by (unfold has_score; symmetry; apply Z.eqb_refl).
          congruence.
        - intros v. specialize (Hf v). cbn [List.filter] in Hf.
          rewrite <- Hsame in Hf.
          destruct (has_score v a); congruence. }
      f_equal. apply IH; assumption.
Qed.



End LeaderboardFacts.

(** ** Geometry builder *)

Section GeometryFacts.
Import Geometry.

Variables s g : float.

Lemma cubelets_by_grid :
  cubelets s g = map (fun c => cubelet_at s g c.1.1 c.1.2 c.2) grid.
Proof. reflexivity. Qed.

(** The cell at index [i] is the one of grid coordinate
    [(i / 9, i / 3 mod 3, i mod 3)]. *)
Lemma cubelets_lookup (i : nat) (c : Mesh) :
  cubelets s g !! i = Some c <->
  (i < 27)%nat /\ c = cubelet_at s g (i / 9) (i / 3 mod 3) (i mod 3).
Proof.
  rewrite cubelets_by_grid.
  do 27 (destruct i as [|i];
         [ cbn; split;
           [ intros [= <-]; split; [lia | reflexivity]
           | intros [_ ->]; reflexivity ] | ]).
  cbn. split; [discriminate | intros [H _]; lia].
Qed.

Lemma index_coords (i : nat) :
  (i < 27)%nat ->
  (i / 9 < 3)%nat /\ (i / 3 mod 3 < 3)%nat /\ (i mod 3 < 3)%nat
  /\ i = cubelet_index (i / 9) (i / 3 mod 3) (i mod 3).
Proof.
  intros Hi.
  do 27 (destruct i as [|i]; [cbn; repeat split; lia|]).
  lia.
Qed.

Lemma coords_index (x y z : nat) :
  (x < 3)%nat -> (y < 3)%nat -> (z < 3)%nat ->
  let i := cubelet_index x y z in
  (i < 27)%nat /\ (i / 9 = x)%nat /\ (i / 3 mod 3 = y)%nat /\ (i mod 3 = z)%nat.
Proof.
  intros Hx Hy Hz.
  destruct x as [|[|[|x]]]; [ | | |lia];
    (destruct y as [|[|[|y]]]; [ | | |lia]);
    (destruct z as [|[|[|z]]]; [ | | |lia]);
    cbn; repeat split; lia.
Qed.

(** Two different indices differ in a grid coordinate. *)
Lemma index_differs (i j : nat) :
  (i < 27)%nat -> (j < 27)%nat -> i <> j ->
  (i / 9 <> j / 9 \/ i / 3 mod 3 <> j / 3 mod 3 \/ i mod 3 <> j mod 3)%nat.
Proof.
  intros Hi Hj Hij.
  destruct (index_coords i Hi) as (_ & _ & _ & Hdi).
  destruct (index_coords j Hj) as (_ & _ & _ & Hdj).
  unfold cubelet_index in Hdi, Hdj. revert Hdi Hdj.
  generalize (i / 9)%nat (i / 3 mod 3)%nat (i mod 3)%nat
             (j / 9)%nat (j / 3 mod 3)%nat (j mod 3)%nat.
  intros. lia.
Qed.

Lemma sum_squares_pos (a b c : Z) :
  (a <> 0 \/ b <> 0 \/ c <> 0 -> 1 <= a * a + b * b + c * c)%Z.
Proof. nia. Qed.

End GeometryFacts.

(** *** The cells of the source, [cubeSize = 1] and [gap = 0.05] *)

Section SourceLayout.
Import Geometry.
Local Open Scope Q_scope.

Lemma source_pitch_pos : 0 < source_pitch.
Proof. vm_compute. reflexivity. Qed.

(** On each axis the three centres are one pitch apart, the middle one at
    [- ulp1]. *)
Lemma source_centre (a : axis) (x y z : nat) :
  (x < 3)%nat -> (y < 3)%nat -> (z < 3)%nat ->
  let n := match a with AxisX => x | AxisY => y | AxisZ => z end in
  centre a (cubelet_at source_cubeSize source_gap x y z)
  == - ulp1 + (inject_Z (Z.of_nat n) - 1) * source_pitch
  /\ finite (coord a (position (cubelet_at source_cubeSize source_gap x y z))) = true.
Proof.
  intros Hx Hy Hz.
  destruct x as [|[|[|x]]]; [ | | |lia];
    (destruct y as [|[|[|y]]]; [ | | |lia]);
    (destruct z as [|[|[|z]]]; [ | | |lia]);
    destruct a; split; vm_compute; reflexivity.
Qed.

Lemma source_dist2 (x y z x' y' z' : nat) :
  (x < 3)%nat -> (y < 3)%nat -> (z < 3)%nat ->
  (x' < 3)%nat -> (y' < 3)%nat -> (z' < 3)%nat ->
  dist2 (cubelet_at source_cubeSize source_gap x y z)
        (cubelet_at source_cubeSize source_gap x' y' z')
  == source_pitch * source_pitch
     * inject_Z ((Z.of_nat x - Z.of_nat x') * (Z.of_nat x - Z.of_nat x')
                 + (Z.of_nat y - Z.of_nat y') * (Z.of_nat y - Z.of_nat y')
                 + (Z.of_nat z - Z.of_nat z') * (Z.of_nat z - Z.of_nat z'))%Z.
Proof.
  intros Hx Hy Hz Hx' Hy' Hz'. unfold dist2.
  destruct (source_centre AxisX x y z Hx Hy Hz) as [-> _].
  destruct (source_centre AxisY x y z Hx Hy Hz) as [-> _].
  destruct (source_centre AxisZ x y z Hx Hy Hz) as [-> _].
  destruct (source_centre AxisX x' y' z' Hx' Hy' Hz') as [-> _].
  destruct (source_centre AxisY x' y' z' Hx' Hy' Hz') as [-> _].
  destruct (source_centre AxisZ x' y' z' Hx' Hy' Hz') as [-> _].
  rewrite !inject_Z_plus, !inject_Z_mult.
  unfold Z.sub. rewrite !inject_Z_plus, !inject_Z_opp. ring.
Qed.

Lemma source_spacing (i j : nat) (c c' : Mesh) :
  i <> j ->
  source_cubelets !! i = Some c ->
  source_cubelets !! j = Some c' ->
  source_pitch * source_pitch <= dist2 c c'.
Proof.
  intros Hij Hi Hj. unfold source_cubelets in Hi, Hj.
  apply cubelets_lookup in Hi as [Hi ->].
  apply cubelets_lookup in Hj as [Hj ->].
  destruct (index_coords i Hi) as (Hx & Hy & Hz & _).
  destruct (index_coords j Hj) as (Hx' & Hy' & Hz' & _).
  rewrite (source_dist2 _ _ _ _ _ _ Hx Hy Hz Hx' Hy' Hz').
  match goal with |- _ <= _ * inject_Z ?k => set (K := k) end.
  assert (1 <= K)%Z as HK.
  { apply sum_squares_pos.
    destruct (index_differs i j Hi Hj Hij) as [H | [H | H]]; lia. }
  rewrite Zle_Qle in HK. change (inject_Z 1) with 1 in HK.
  revert HK. generalize (inject_Z K) source_pitch. intros k p Hk.
  assert (0 <= p * p) as Hsq by nra.
  assert (0 <= k - 1) as Hk1 by lra.
  pose proof (Qmult_le_0_compat _ _ Hsq Hk1) as Hprod.
  lra.
Qed.

Lemma source_mirror (i : nat) (c : Mesh) :
  source_cubelets !! i = Some c ->
  exists c', source_cubelets !! (26 - i)%nat = Some c'
             /\ mirrored_about (- ulp1) c c'
             /\ forall a, finite (coord a (position c)) = true.
Proof.
  intros Hi. unfold source_cubelets in *.
  apply cubelets_lookup in Hi as [Hi ->].
  exists (cubelet_at source_cubeSize source_gap
            ((26 - i) / 9) ((26 - i) / 3 mod 3) ((26 - i) mod 3)).
  split; [apply cubelets_lookup; split; [lia | reflexivity]|].
  split.
  - intros a.
    do 27 (destruct i as [|i]; [destruct a; vm_compute; reflexivity|]).
    lia.
  - intros a. destruct (index_coords i Hi) as (Hx & Hy & Hz & _).
    apply (source_centre a _ _ _ Hx Hy Hz).
Qed.

(** C2, as stated, fails in the arithmetic of the code.  The cells the
    source builds are not symmetric about the origin: the middle cell is
    at [(-2^-52, -2^-52, -2^-52)] and no cell has the [x] coordinate
    [2^-52] of its mirror image, and the first and last cells are not
    opposite.  And not every size and gap above 0 gives cells a pitch
    apart: at size [1e308] the sums overflow and the first two cells
    coincide. *)
Lemma cubelets_not_symmetric_about_origin :
  position <$> source_cubelets !! 13%nat
  = Some (Vec3 (-0x1p-52) (-0x1p-52) (-0x1p-52))
  /\ existsb (fun c => vx (position c) =? 0x1p-52)%float source_cubelets = false
  /\ (vx ∘ position) <$> source_cubelets !! 0%nat = Some (-1.0500000000000003)%float
  /\ (vx ∘ position) <$> source_cubelets !! 26%nat = Some 1.0499999999999998%float
  /\ existsb (fun c => vx (position c) =? 1.0500000000000003)%float source_cubelets
     = false
  /\ ~ (exact 1.0499999999999998 == - exact (-1.0500000000000003))
  /\ position <$> cubelets 1e308 1 !! 0%nat
     = Some (Vec3 neg_infinity neg_infinity neg_infinity)
  /\ position <$> cubelets 1e308 1 !! 1%nat
     = Some (Vec3 neg_infinity neg_infinity neg_infinity).
Proof.
  repeat split; try (vm_compute; reflexivity).
  vm_compute. discriminate.
Qed.

(** C2, amended.  For every cell size [s] and gap [g] the loop produces
    exactly 27 cells, one per grid coordinate [(x, y, z)] with
    [x, y, z < 3] (at index [9x + 3y + z]), positioned on each axis at
    [start + i * (s + g)] with [start = -((s + g) * 3 - g) / 2 + s / 2],
    all of it in binary64.  For the source's [s = 1] and [g = 0.05] the
    positions are finite and symmetric about the point whose coordinates
    are all [-2^-52], one rounding error from the origin: the cell at
    index [26 - i] is the mirror image of the cell at index [i] in that
    point.  And the least centre-to-centre distance between two cells is
    the double [s + g]; it is stated on squares. *)
Theorem cubelets_layout :
  (forall s g : float,
      let start := (- ((s + g) * 3 - g) / 2 + s / 2)%float in
      length (cubelets s g) = 27%nat
      /\ (forall x y z, (x < 3)%nat -> (y < 3)%nat -> (z < 3)%nat ->
            exists c, cubelets s g !! cubelet_index x y z = Some c
                      /\ position c = Vec3 (start + num x * (s + g))%float
                                           (start + num y * (s + g))%float
                                           (start + num z * (s + g))%float)
      /\ (forall i c, cubelets s g !! i = Some c ->
            exists x y z, (x < 3)%nat /\ (y < 3)%nat /\ (z < 3)%nat
                          /\ i = cubelet_index x y z))
  /\ (forall i c, source_cubelets !! i = Some c ->
        exists c', source_cubelets !! (26 - i)%nat = Some c'
                   /\ mirrored_about (- ulp1) c c'
                   /\ forall a, finite (coord a (position c)) = true)
  /\ (forall i j c c', i <> j ->
        source_cubelets !! i = Some c -> source_cubelets !! j = Some c' ->
        source_pitch * source_pitch <= dist2 c c')
  /\ (exists c c', source_cubelets !! 0%nat = Some c
                   /\ source_cubelets !! 1%nat = Some c'
                   /\ dist2 c c' == source_pitch * source_pitch)
  /\ source_pitch = exact (source_cubeSize + source_gap)
  /\ 0 < source_pitch.
Proof.
  split.
  { intros s g. cbn zeta. split; [reflexivity|]. split.
    - intros x y z Hx Hy Hz.
      exists (cubelet_at s g x y z). split; [|reflexivity].
      apply cubelets_lookup.
      destruct (coords_index x y z Hx Hy Hz) as (Hi & -> & -> & ->).
      split; [exact Hi | reflexivity].
    - intros i c Hi. apply cubelets_lookup in Hi as [Hi _].
      exists (i / 9)%nat, (i / 3 mod 3)%nat, (i mod 3)%nat.
      apply index_coords, Hi. }
  split; [exact source_mirror|].
  split; [exact source_spacing|].
  split.
  { exists (cubelet_at source_cubeSize source_gap 0 0 0),
           (cubelet_at source_cubeSize source_gap 0 0 1).
    split; [reflexivity|]. split; [reflexivity|].
    vm_compute. reflexivity. }
  split; [reflexivity | exact source_pitch_pos].
Qed.

(** The first cell and its mirror image, the last one. *)
Lemma cubelets_layout_witness :
  length source_cubelets = 27%nat
  /\ exists c', source_cubelets !! 26%nat = Some c'
                /\ mirrored_about (- ulp1)
                     (cubelet_at source_cubeSize source_gap 0 0 0) c'.
Proof.
  destruct cubelets_layout as (Hgen & Hmir & _).
  split; [apply (Hgen source_cubeSize source_gap)|].
  destruct (Hmir 0%nat (cubelet_at source_cubeSize source_gap 0 0 0) eq_refl)
    as (c' & Hc' & Hm & _).
  exists c'. split; [exact Hc' | exact Hm].
Defined.

End SourceLayout.

(** ** Gesture tracker *)

Section GestureFacts.
Import Js Gesture.
Local Open Scope float_scope.

Lemma truthy_num_true (c : float) :
  truthy_num c = true <-> (c =? 0) = false /\ PrimFloat.is_nan c = false.
Proof.
  unfold truthy_num. change (PrimFloat.is_zero c) with (c =? 0).
  rewrite negb_true_iff, orb_false_iff. reflexivity.
Qed.

Lemma truthy_num_zero (c : float) : (c =? 0) = true -> truthy_num c = false.
Proof.
  intros H. unfold truthy_num. change (PrimFloat.is_zero c) with (c =? 0).
  rewrite H. reflexivity.
Qed.

(** On an accepted event both extractions return the event's position. *)
Lemma pointer_accepted (e : event) :
  accepted e = true ->
  pointer_x e = Ok (x (position_of e)) /\ pointer_y e = Ok (y (position_of e)).
Proof.
  destruct e as [cx cy | [|t ts]]; cbn; [|discriminate|auto].
  intros [Hx Hy]%andb_true_iff. unfold pointer_x, pointer_y; cbn.
  rewrite Hx, Hy. auto.
Qed.

(** On any other event one of the two extractions faults, the first one
    evaluated that does deciding the fault. *)
Lemma pointer_rejected (e : event) :
  accepted e = false ->
  exists err, (pointer_x e = Throw err
               \/ (is_ok (pointer_x e) = true /\ pointer_y e = Throw err))
              /\ (err = no_touches \/ err = no_first_touch).
Proof.
  destruct e as [cx cy | [|t ts]]; cbn; [| |discriminate].
  - intros H. unfold pointer_x, pointer_y; cbn.
    destruct (truthy_num cx); cbn in *.
    + rewrite H. exists no_touches. split; [right|left]; auto.
    + exists no_touches. split; [left|left]; auto.
  - intros _. exists no_first_touch. split; [left|right]; reflexivity.
Qed.

Lemma onMouseDown_accepted (e : event) (st : state) :
  accepted e = true ->
  onMouseDown e st
  = (State true (position_of e) (rotation_x st) (rotation_y st), Ok tt).
Proof.
  intros [Hx Hy]%pointer_accepted.
  unfold onMouseDown, bind, eval, assign. rewrite Hx, Hy.
  destruct (position_of e). reflexivity.
Qed.

Lemma onMouseDown_rejected (e : event) (st : state) :
  accepted e = false ->
  exists err, onMouseDown e st = (set_isDragging true st, Throw err)
              /\ (err = no_touches \/ err = no_first_touch).
Proof.
  intros (err & [Hx | [Hx Hy]] & Herr)%pointer_rejected; exists err;
    (split; [|exact Herr]).
  - unfold onMouseDown, bind, eval, assign. rewrite Hx. reflexivity.
  - unfold onMouseDown, bind, eval, assign. rewrite Hy.
    destruct (pointer_x e); [reflexivity|discriminate].
Qed.

Lemma onMouseMove_idle (e : event) (st : state) :
  isDragging st = false -> onMouseMove e st = (st, Ok tt).
Proof.
  intros H. unfold onMouseMove, bind, read. rewrite H. reflexivity.
Qed.

Lemma onMouseMove_accepted (e : event) (st : state) :
  isDragging st = true ->
  accepted e = true ->
  let p := position_of e in
  let prev := previousMousePosition st in
  onMouseMove e st
  = (State true p
           (rotation_x st + (y p - y prev) * rotationSpeed)
           (rotation_y st + (x p - x prev) * rotationSpeed),
     Ok tt).
Proof.
  intros Hd [Hx Hy]%pointer_accepted. cbn zeta.
  unfold onMouseMove, bind, read, eval, assign. rewrite Hd, Hx, Hy. cbn.
  unfold set_previousMousePosition, add_rotation_x, add_rotation_y. cbn.
  rewrite Hd. destruct (position_of e). reflexivity.
Qed.

Lemma onMouseMove_rejected (e : event) (st : state) :
  isDragging st = true ->
  accepted e = false ->
  exists err, onMouseMove e st = (st, Throw err)
              /\ (err = no_touches \/ err = no_first_touch).
Proof.
  intros Hd (err & [Hx | [Hx Hy]] & Herr)%pointer_rejected; exists err;
    (split; [|exact Herr]).
  - unfold onMouseMove, bind, read, eval. rewrite Hd, Hx. reflexivity.
  - unfold onMouseMove, bind, read, eval. rewrite Hd, Hy. cbn.
    destruct (pointer_x e); [reflexivity|discriminate].
Qed.

Lemma last_cons_default {A} (a d : A) (l : list A) :
  List.last (a :: l) d = List.last l a.
Proof.
  revert a d. induction l as [|b l IH]; intros a d; [reflexivity|].
  change (List.last (a :: b :: l) d) with (List.last (b :: l) d).
  rewrite !IH. reflexivity.
Qed.

(** While a drag is active, accepted samples each add their delta against
    the sample before. *)
Lemma moves_accumulate (moves : list event) (st : state) :
  isDragging st = true ->
  Forall (fun e => accepted e = true) moves ->
  let st' := fold_left (fun s e => dispatch (onMouseMove e) s) moves st in
  let prev := previousMousePosition st in
  isDragging st' = true
  /\ previousMousePosition st' = List.last (map position_of moves) prev
  /\ rotation_y st' = turned x prev (map position_of moves) (rotation_y st)
  /\ rotation_x st' = turned y prev (map position_of moves) (rotation_x st).
Proof.
  intros Hd Hacc. revert st Hd.
  induction Hacc as [|e moves He _ IH]; intros st Hd.
  - cbn. auto.
  - cbn zeta. cbn [fold_left].
    assert (dispatch (onMouseMove e) st
            = State true (position_of e)
                (rotation_x st + (y (position_of e) - y (previousMousePosition st))
                                 * rotationSpeed)
                (rotation_y st + (x (position_of e) - x (previousMousePosition st))
                                 * rotationSpeed)) as ->
      by (unfold dispatch; rewrite (onMouseMove_accepted e st Hd He); reflexivity).
    match goal with |- context [fold_left _ moves ?s1] =>
      specialize (IH s1 eq_refl); cbn zeta in IH;
      cbn [previousMousePosition rotation_x rotation_y] in IH;
      destruct IH as (IH1 & IH2 & IH3 & IH4)
    end.
    assert (List.last (map position_of (e :: moves)) (previousMousePosition st)
            = List.last (map position_of moves) (position_of e)) as ->.
    { cbn [map]. apply last_cons_default. }
    cbn [map turned]. auto.
Qed.

(** While a drag is active, the samples the handler faults on change
    nothing. *)
Lemma moves_filter (moves : list event) (st : state) :
  isDragging st = true ->
  fold_left (fun s e => dispatch (onMouseMove e) s) moves st
  = fold_left (fun s e => dispatch (onMouseMove e) s)
      (List.filter accepted moves) st.
Proof.
  revert st. induction moves as [|e moves IH]; intros st Hd; [reflexivity|].
  cbn [fold_left List.filter]. destruct (accepted e) eqn:He.
  - cbn [fold_left]. apply IH. unfold dispatch.
    rewrite (onMouseMove_accepted e st Hd He). reflexivity.
  - destruct (onMouseMove_rejected e st Hd He) as (err & Hr & _).
    unfold dispatch at 2. rewrite Hr. cbn [fst]. apply IH, Hd.
Qed.

Lemma onMouseDown_arms (e : event) (st : state) :
  dispatch (onMouseDown e) st
  = State true (Pointer.drag_origin st e) (rotation_x st) (rotation_y st).
Proof.
  unfold dispatch, Pointer.drag_origin. destruct (accepted e) eqn:He.
  - rewrite (onMouseDown_accepted e st He). reflexivity.
  - destruct (onMouseDown_rejected e st He) as (err & -> & _). reflexivity.
Qed.

Lemma run_drag_accepted (st : state) (press release : event) (moves : list event) :
  Forall (fun e => accepted e = true) moves ->
  let p0 := Pointer.drag_origin st press in
  let st' := run_drag st press moves release in
  isDragging st' = false
  /\ previousMousePosition st' = List.last (map position_of moves) p0
  /\ rotation_y st' = turned x p0 (map position_of moves) (rotation_y st)
  /\ rotation_x st' = turned y p0 (map position_of moves) (rotation_x st).
Proof.
  intros Hm. cbn zeta. unfold run_drag. rewrite onMouseDown_arms.
  match goal with |- context [fold_left _ moves ?s1] =>
    destruct (moves_accumulate moves s1 eq_refl Hm) as (_ & H2 & H3 & H4)
  end.
  cbn [previousMousePosition rotation_x rotation_y] in H2, H3, H4.
  unfold dispatch, onMouseUp, assign, set_isDragging. cbn [fst].
  cbn [isDragging previousMousePosition rotation_x rotation_y].
  auto.
Qed.

(** C1, as stated, fails, in three ways.  The release handler does not
    read the pointer: a drag released away from its last move sample (here
    with no move sample at all) does not turn the group by the
    press-to-release delta.  The per-move deltas are rounded one by one and
    do not telescope: two drags with the same press and the same last
    sample, one with a single sample and one with three, end at different
    angles, and the second at neither the double [10 * k] nor the real
    number ten times [k].  And a sample the move handler faults on is not
    taken in: a drag to a mouse position with [clientX = 0] turns
    nothing. *)
Lemma drag_release_not_sampled :
  (let st' := run_drag initial (MouseEvent 100 100) [] (MouseEvent 110 120) in
   rotation_y st' = 0 /\ rotation_x st' = 0
   /\ (110 - 100) * rotationSpeed = 0.05
   /\ (120 - 100) * rotationSpeed = 0.1
   /\ (rotation_y st' =? (110 - 100) * rotationSpeed) = false
   /\ (rotation_x st' =? (120 - 100) * rotationSpeed) = false)
  /\ (let press := MouseEvent 100 100 in
      let release := MouseEvent 110 120 in
      let one := run_drag initial press [ MouseEvent 110 120 ] release in
      let three :=
        run_drag initial press
          [ MouseEvent 103 100; TouchEvent [ MkTouch 0 90 ]; MouseEvent 110 120 ]
          release in
      rotation_y one = 0.05 /\ rotation_x one = 0.1
      /\ rotation_y three = 0.050000000000000044
      /\ rotation_x three = 0.09999999999999999
      /\ (rotation_y three =? (110 - 100) * rotationSpeed) = false
      /\ (rotation_x three =? (120 - 100) * rotationSpeed) = false
      /\ ~ (Geometry.exact (rotation_y three)
            == 10 * Geometry.exact rotationSpeed)%Q
      /\ ~ (Geometry.exact (rotation_x three)
            == 20 * Geometry.exact rotationSpeed)%Q)
  /\ (let st' := run_drag initial (MouseEvent 5 5) [ MouseEvent 0 5 ] (MouseEvent 0 5) in
      rotation_y st' = 0
      /\ (0 - 5) * rotationSpeed = (-0.025)
      /\ (rotation_y st' =? (0 - 5) * rotationSpeed) = false
      /\ outcome (onMouseMove (MouseEvent 0 5)) (State true (Point 5 5) 0 0)
         = Throw no_touches).
Proof. vm_compute. repeat split; discriminate. Qed.

(** C1, amended.  For a drag whose press and move samples the handlers
    accept, with any number of move samples, the yaw ends at the value got
    by adding [(x_i - x_(i-1)) * k] to it sample by sample, each product
    and each sum rounded to binary64, and the pitch likewise with
    [(y_i - y_(i-1)) * k]; [k = 0.005] and sample 0 is the press.  The
    release adds nothing.  With one move sample at [q] the yaw changes by
    the one addition of [(q.x - p0.x) * k] and the pitch by that of
    [(q.y - p0.y) * k].  Nothing clamps or bounds the angles: a drag can
    take both past every finite value. *)
Theorem drag_accumulates_sample_deltas
    (st : state) (press release : event) (moves : list event) :
  accepted press = true ->
  Forall (fun e => accepted e = true) moves ->
  let p0 := position_of press in
  let st' := run_drag st press moves release in
  rotationSpeed = 0.005
  /\ rotation_y st' = turned x p0 (map position_of moves) (rotation_y st)
  /\ rotation_x st' = turned y p0 (map position_of moves) (rotation_x st)
  /\ (forall e, moves = [e] ->
        let q := position_of e in
        rotation_y st' = rotation_y st + (x q - x p0) * rotationSpeed
        /\ rotation_x st' = rotation_x st + (y q - y p0) * rotationSpeed)
  /\ (exists press' e release',
        accepted press' = true /\ accepted e = true
        /\ let far := run_drag initial press' [e] release' in
           rotation_y far = infinity /\ rotation_x far = infinity).
Proof.
  intros Hp Hm. cbn zeta.
  destruct (run_drag_accepted st press release moves Hm) as (_ & _ & Hy & Hx).
  unfold Pointer.drag_origin in Hy, Hx. rewrite Hp in Hy, Hx.
  split; [reflexivity|]. split; [exact Hy|]. split; [exact Hx|].
  split.
  - intros e ->. cbn [map turned] in Hy, Hx. auto.
  - exists (MouseEvent (- max_value) (- max_value)),
           (MouseEvent max_value max_value), (MouseEvent max_value max_value).
    vm_compute. auto.
Qed.

(** The three-sample drag: its yaw is the sum rounded three times. *)
Lemma drag_accumulates_sample_deltas_witness :
  let press := MouseEvent 100 100 in
  let moves := [ MouseEvent 103 100; TouchEvent [ MkTouch 0 90 ]; MouseEvent 110 120 ] in
  let st' := run_drag initial press moves (MouseEvent 110 120) in
  rotation_y st' = 0 + (103 - 100) * 0.005 + (0 - 103) * 0.005 + (110 - 0) * 0.005
  /\ rotation_x st' = 0 + (100 - 100) * 0.005 + (90 - 100) * 0.005 + (120 - 90) * 0.005.
Proof.
  cbn zeta.
  destruct (drag_accumulates_sample_deltas initial (MouseEvent 100 100)
              (MouseEvent 110 120)
              [ MouseEvent 103 100; TouchEvent [ MkTouch 0 90 ]; MouseEvent 110 120 ]
              eq_refl)
    as (_ & Hy & Hx & _).
  - repeat constructor.
  - split; [exact Hy | exact Hx].
Defined.

(** A mouse sample at coordinate 0 during a drag is dropped whole: the
    handler faults before it turns the group or stores the sample. *)
Example drag_through_zero :
  let st' := run_drag initial (MouseEvent 5 5) [ MouseEvent 0 5 ] (MouseEvent 0 5) in
  rotation_y st' = 0 /\ previousMousePosition st' = Point 5 5.
Proof. vm_compute. split; reflexivity. Qed.

(** A press the handler faults on leaves the drag armed against the
    previous position it had stored. *)
Example press_at_zero :
  dispatch (onMouseDown (MouseEvent 0 50)) initial = State true (Point 0 0) 0 0
  /\ outcome (onMouseDown (MouseEvent 0 50)) initial = Throw no_touches.
Proof. split; reflexivity. Qed.

(** C9. Press and move are partial on mouse input: on a mouse event with
    [clientX] or [clientY] equal to 0 the extraction falls through to
    [e.touches[0]], [e.touches] is [undefined], and the handler faults
    with a [TypeError] (the move handler whenever a drag is active, the
    only case in which it reads the event).  The events on which each of
    the two handlers returns in every state are exactly the mouse events
    with both coordinates nonzero (and not [NaN], the other falsy number)
    and the touch events with at least one touch point. *)
Theorem pointer_handlers_partial :
  (forall (st : state) (cx cy : float),
      (cx =? 0) = true \/ (cy =? 0) = true ->
      outcome (onMouseDown (MouseEvent cx cy)) st = Throw no_touches
      /\ (isDragging st = true ->
          outcome (onMouseMove (MouseEvent cx cy)) st = Throw no_touches))
  /\ (forall e, total_on onMouseDown e <-> accepted e = true)
  /\ (forall e, total_on onMouseMove e <-> accepted e = true)
  /\ (forall e, accepted e = true <->
                (exists cx cy, e = MouseEvent cx cy
                               /\ ((cx =? 0) = false /\ PrimFloat.is_nan cx = false)
                               /\ ((cy =? 0) = false /\ PrimFloat.is_nan cy = false))
                \/ (exists t ts, e = TouchEvent (t :: ts))).
Proof.
  split; [|split; [|split]].
  - intros st cx cy H.
    assert (pointer_x (MouseEvent cx cy) = Throw no_touches
            \/ (is_ok (pointer_x (MouseEvent cx cy)) = true
                /\ pointer_y (MouseEvent cx cy) = Throw no_touches)) as Hp.
    { unfold pointer_x, pointer_y; cbn.
      destruct (truthy_num cx) eqn:Ex; [|left; reflexivity].
      right. split; [reflexivity|].
      destruct H as [H | H].
      - apply truthy_num_zero in H. congruence.
      - apply truthy_num_zero in H. rewrite H. reflexivity. }
    split.
    + unfold outcome, onMouseDown, bind, eval, assign.
      destruct Hp as [-> | [Hx ->]]; [reflexivity|].
      destruct (pointer_x (MouseEvent cx cy)); [reflexivity|discriminate].
    + intros Hd. unfold outcome, onMouseMove, bind, eval, read. rewrite Hd.
      cbn [negb snd].
      destruct Hp as [-> | [Hx ->]]; [reflexivity|].
      destruct (pointer_x (MouseEvent cx cy)); [reflexivity|discriminate].
  - intros e. split.
    + intros Htot. destruct (accepted e) eqn:Ea; [reflexivity|].
      specialize (Htot initial). unfold outcome in Htot.
      destruct (onMouseDown_rejected e initial Ea) as (err & Herr & _).
      rewrite Herr in Htot. discriminate.
    + intros Ha st. unfold outcome.
      rewrite (onMouseDown_accepted e st Ha). reflexivity.
  - intros e. split.
    + intros Htot. destruct (accepted e) eqn:Ea; [reflexivity|].
      specialize (Htot (State true (Point 0 0) 0 0)). unfold outcome in Htot.
      destruct (onMouseMove_rejected e (State true (Point 0 0) 0 0) eq_refl Ea)
        as (err & Herr & _).
      rewrite Herr in Htot. discriminate.
    + intros Ha st. unfold outcome.
      destruct (isDragging st) eqn:Hd.
      * rewrite (onMouseMove_accepted e st Hd Ha). reflexivity.
      * rewrite (onMouseMove_idle e st Hd). reflexivity.
  - intros e. destruct e as [cx cy | [|t ts]]; cbn [accepted].
    + rewrite andb_true_iff, !truthy_num_true. split.
      * intros [Hx Hy]. left. exists cx, cy. auto.
      * intros [(cx' & cy' & [= <- <-] & Hx & Hy) | (t & ts & [=])]. auto.
    + split; [discriminate|].
      intros [(cx' & cy' & [=] & _) | (t & ts & [=])].
    + split; [|reflexivity]. intros _. right. eauto.
Qed.

Lemma pointer_handlers_partial_witness :
  outcome (onMouseDown (MouseEvent 0 240)) initial = Throw no_touches
  /\ outcome (onMouseMove (MouseEvent 320 0)) (State true (Point 320 12) 0 0)
     = Throw no_touches.
Proof.
  split.
  - apply (proj1 pointer_handlers_partial initial 0 240). left. reflexivity.
  - apply (proj1 pointer_handlers_partial (State true (Point 320 12) 0 0) 320 0).
    + right. reflexivity.
    + reflexivity.
Defined.

End GestureFacts.

(** ** Scene host: teardown *)

Section SceneFacts.
Import Js Scene.

(** After the effect has run on a container, the eight listeners are
    registered and the renderer, 27 geometries, the four materials and the
    three scene children are live. *)
Lemma scene_effect_mounts :
  fst (scene_effect (Some VElement) unmounted)
  = Host registered true true (seq 0 27) allocated_materials 3
         (CAppendChild :: map CAddEventListener registered)
  /\ match snd (scene_effect (Some VElement) unmounted) with
     | Ok (Some env) =>
         env !! "renderer" = Some VRenderer
         /\ env !! "scene" = Some VScene
         /\ env !! "currentMount" = Some VElement
         /\ env !! "geometry" = None
         /\ env !! "materials" = None
     | _ => False
     end.
Proof. split; vm_compute; repeat split. Qed.

(** Inside the loop body [geometry] and [materials] are bound. *)
Lemma loop_body_binds (env : gmap string value) (x y z : nat) (h : host) :
  exists h' block,
    loop_body env x y z h = (h', Ok block)
    /\ block !! "geometry" = Some (VGeometry (Geometry.cubelet_index x y z))
    /\ is_Some (block !! "materials").
Proof.
  unfold loop_body, new_geometry, bind, assign, ret. cbn beta iota zeta.
  eexists _, _. split; [reflexivity|]. split.
  - rewrite !lookup_insert_ne by discriminate. apply lookup_insert_eq.
  - rewrite lookup_insert_ne by discriminate. rewrite lookup_insert_eq. eauto.
Qed.

(** With no container the effect returns at once and registers nothing. *)
Lemma scene_effect_no_container :
  scene_effect None unmounted = (unmounted, Ok None).
Proof. reflexivity. Qed.

(** Case analysis on an index: [0], ..., [n - 1], and [n] or more. *)
Ltac split_index i n :=
  lazymatch n with
  | O => idtac
  | Datatypes.S ?n' => destruct i as [|i]; [ | split_index i n' ]
  end.

(** C6, on the code. Unmounting a mounted scene: the cleanup removes the
    eight listeners, then detaches the canvas and disposes of the renderer,
    and then faults with [ReferenceError] on [geometry], an identifier of
    the loop body's block that the cleanup closure cannot see.  Every
    detach comes before every release, but the 27 geometries, the four
    materials and the scene's children are never released. *)
Theorem unmount_faults_before_release :
  let (h, r) := mount_then_unmount (Some VElement) in
  r = Throw (ReferenceError "geometry")
  /\ listeners h = []
  /\ canvas_attached h = false
  /\ renderer_live h = false
  /\ geometries_live h = seq 0 27
  /\ materials_live h = allocated_materials
  /\ scene_children h = 3%nat
  /\ drop 9 (calls h)
     = (map CRemoveEventListener registered
        ++ [ CRemoveChild; CDispose VRenderer ])%list
  /\ (forall i j c c', drop 9 (calls h) !! i = Some c ->
                       drop 9 (calls h) !! j = Some c' ->
                       is_detach c = true -> is_release c' = true ->
                       (i < j)%nat).
Proof.
  assert (mount_then_unmount (Some VElement)
          = (Host [] false false (seq 0 27) allocated_materials 3
                  (CAppendChild :: map CAddEventListener registered
                   ++ map CRemoveEventListener registered
                   ++ [ CRemoveChild; CDispose VRenderer ]),
             Throw (ReferenceError "geometry"))) as ->
    by (vm_compute; reflexivity).
  repeat split.
  intros i j c c' Hi Hj Hc Hc'.
  cbn in Hi, Hj.
  assert (i < 8)%nat as Hi8.
  { split_index i 10%nat; cbn in Hi; try discriminate Hi; try lia;
      injection Hi as <-; discriminate Hc. }
  assert (8 <= j)%nat as Hj8; [|lia].
  split_index j 10%nat; cbn in Hj; try discriminate Hj; try lia;
    injection Hj as <-; discriminate Hc'.
Qed.

End SceneFacts.

(** ** The component as a whole *)

Section AppFacts.
Import App.
Variables (appId : string) (initialAuthToken : option string).

(** [submitScore] sets nothing but the message. *)
Lemma submitScore_frame (s : app_state) (w : Submit.write_outcome) :
  let s' := commit s (Submit.submitScore appId s w) in
  db s' = db s /\ userId s' = userId s /\ isAuthReady s' = isAuthReady s
  /\ leaderboardData s' = leaderboardData s /\ score s' = score s
  /\ startTime s' = startTime s /\ isPlaying s' = isPlaying s.
Proof.
  cbn zeta. unfold Submit.submitScore.
  destruct (negb (Js.truthy_optobj (db s)) || negb (Js.truthy_optstring (userId s))
            || Z.eqb (score s) 0); [cbn; repeat split|].
  destruct (userId s) eqn:Eu; [|cbn; repeat split; assumption].
  destruct w; cbn; repeat split; assumption.
Qed.

(** The auth callback sets nothing but the identity, the ready flag and the
    message. *)
Lemma onAuthStateChanged_frame (s : app_state) (user : option string)
    (o : Submit.write_outcome) :
  let s' := Auth.commit_calls s (Auth.onAuthStateChanged initialAuthToken user o) in
  db s' = db s /\ leaderboardData s' = leaderboardData s /\ score s' = score s
  /\ startTime s' = startTime s /\ isPlaying s' = isPlaying s
  /\ match user with
     | Some uid => userId s' = Some uid /\ isAuthReady s' = true
     | None => userId s' = userId s /\ isAuthReady s' = isAuthReady s
     end.
Proof.
  cbn zeta. unfold Auth.onAuthStateChanged, Auth.after_sign_in.
  destruct user as [uid|]; [cbn; repeat split|].
  destruct (Js.truthy_optstring initialAuthToken);
    [destruct initialAuthToken|]; destruct o; cbn; repeat split.
Qed.

Lemma endGame_frame (s : app_state) (now : Z) :
  let s' := commit s (Session.endGame s now) in
  db s' = db s /\ userId s' = userId s /\ isAuthReady s' = isAuthReady s
  /\ leaderboardData s' = leaderboardData s
  /\ startTime s' = startTime s /\ isPlaying s' = false
  /\ ((10 | score s) -> (10 | score s')).
Proof.
  cbn zeta. unfold Session.endGame.
  destruct (Js.truthy_optZ (startTime s)); [destruct (startTime s) eqn:Es|];
    cbn; repeat split; auto.
  intros _. apply Z.divide_factor_r.
Qed.

Lemma boot_invariant (cfg : option Auth.firebase_config) :
  invariant cfg (boot cfg).
Proof.
  destruct cfg; cbn; repeat split; try discriminate; try constructor;
    try (intros H; exfalso; apply H; reflexivity);
    try (exists 0; reflexivity).
Qed.

(** Closes a goal about a state whose identity is some [uid] with what the
    invariant says of such states. *)
Ltac by_identity Huid :=
  match goal with
  | H : userId _ = Some _ |- _ => destruct (Huid _ H); assumption
  end.

Lemma fire_invariant (cfg : option Auth.firebase_config) (sys : system) (ev : event) :
  invariant cfg sys ->
  enabled sys ev = true ->
  invariant cfg (fire appId initialAuthToken sys ev).
Proof.
  intros (Hl & Hdb & Hplay & Huid & Hready & Hsort & Hdata & Hscore) Hen.
  destruct sys as [s l]. cbn [ui auth_listening] in *.
  unfold invariant, fire. cbn [ui auth_listening].
  destruct ev as [user o | docs | m | now | now | w].
  - destruct (onAuthStateChanged_frame s user o)
      as (E1 & E2 & E3 & E4 & E5 & E6).
    unfold Subscription.subscribes in *.
    rewrite E1, E2, E3, E4, E5.
    destruct user as [uid|]; destruct E6 as [E6 E7]; rewrite E6, E7.
    + assert (Js.truthy_optobj (db s) = true) as Hdb'
        by (rewrite Hdb, <- Hl; exact Hen).
      rewrite Hdb'. repeat split; eauto.
    + repeat split; auto; by_identity Huid.
  - cbn. repeat split; auto; try by_identity Huid.
    apply array_sort_sorted.
  - cbn. repeat split; auto; by_identity Huid.
  - cbn. repeat split; eauto; try by_identity Huid.
    exists 0. reflexivity.
  - destruct (endGame_frame s now) as (E1 & E2 & E3 & E4 & E5 & E6 & E7).
    unfold Subscription.subscribes in *.
    rewrite E1, E2, E3, E4, E5, E6.
    repeat split; auto; try by_identity Huid; try discriminate.
  - destruct (submitScore_frame s w) as (E1 & E2 & E3 & E4 & E5 & E6 & E7).
    unfold Subscription.subscribes in *.
    rewrite E1, E2, E3, E4, E5, E6, E7.
    repeat split; auto; by_identity Huid.
Qed.

Lemma reachable_invariant (cfg : option Auth.firebase_config) (sys : system) :
  reachable appId initialAuthToken cfg sys -> invariant cfg sys.
Proof.
  induction 1 as [|sys ev _ IH Hen];
    [apply boot_invariant | apply fire_invariant; assumption].
Qed.

(** What [run] returns is reachable. *)
Lemma run_reachable (cfg : option Auth.firebase_config) (evs : list event)
    (sys sys' : system) :
  reachable appId initialAuthToken cfg sys ->
  run appId initialAuthToken sys evs = Some sys' ->
  reachable appId initialAuthToken cfg sys'.
Proof.
  revert sys. induction evs as [|ev evs IH]; intros sys Hr Hrun; cbn in Hrun.
  - injection Hrun as <-. exact Hr.
  - destruct (enabled sys ev) eqn:Hen; [|discriminate].
    apply (IH (fire appId initialAuthToken sys ev)); [|exact Hrun].
    apply reach_fire; assumption.
Qed.

(** X1. In every state the component can reach, an enabled Submit button
    means the click writes to the store: the identity is set and not empty,
    the score is not 0, no game is in progress, and [submitScore] starts
    with the [addDoc] of that identity and score and writes only once. *)
Theorem enabled_submit_writes (cfg : option Auth.firebase_config)
    (sys : system) (w : Submit.write_outcome) :
  reachable appId initialAuthToken cfg sys ->
  enabled sys (ClickSubmit w) = true ->
  exists uid rest,
    userId (ui sys) = Some uid /\ uid <> "" /\ score (ui sys) <> 0
    /\ isPlaying (ui sys) = false
    /\ Submit.submitScore appId (ui sys) w
       = AddDoc (Submit.leaderboard_path appId) (NewDoc uid (score (ui sys))) :: rest
    /\ existsb is_store_write rest = false.
Proof.
  intros Hr Hen. apply reachable_invariant in Hr.
  destruct Hr as (_ & _ & _ & Huid & _).
  cbn in Hen. rewrite negb_true_iff, !orb_false_iff in Hen.
  destruct Hen as [[Hid Hsc] Hpl].
  rewrite negb_false_iff in Hid.
  destruct (userId (ui sys)) as [uid|] eqn:Eu; [|discriminate].
  destruct (Huid uid eq_refl) as [_ Hdb].
  exists uid.
  exists (match w with
          | Submit.Resolved =>
              [ SetMessage "Score submitted successfully!";
                ConsoleLog "Score submitted:" ]
          | Submit.Rejected m =>
              [ ConsoleError "Error submitting score:";
                SetMessage ("Failed to submit score: " +:+ m) ]
          end).
  split; [reflexivity|].
  split; [intros ->; discriminate|].
  split; [apply Z.eqb_neq; exact Hsc|].
  split; [exact Hpl|].
  split.
  - unfold Submit.submitScore. rewrite Eu, Hdb, Hid, Hsc. reflexivity.
  - destruct w; reflexivity.
Qed.

(** X2. Whenever the End button can be clicked, a start time is on record
    (the one the last Start click stored); the click ends the game, keeps
    that start time, brings the Start button back, and, the start time not
    being 0, sets the score to the one derived from the elapsed time. *)
Theorem end_click_finds_start_time (cfg : option Auth.firebase_config)
    (sys : system) (now : Z) :
  reachable appId initialAuthToken cfg sys ->
  enabled sys (ClickEnd now) = true ->
  exists t0,
    startTime (ui sys) = Some t0
    /\ let sys' := fire appId initialAuthToken sys (ClickEnd now) in
       isPlaying (ui sys') = false
       /\ startTime (ui sys') = Some t0
       /\ (forall now', enabled sys' (ClickStart now') = true)
       /\ (forall now', enabled sys' (ClickEnd now') = false)
       /\ (t0 <> 0 -> score (ui sys') = (now - t0) / 1000 * 10).
Proof.
  intros Hr Hen. apply reachable_invariant in Hr.
  destruct Hr as (_ & _ & Hplay & _).
  cbn in Hen. destruct (Hplay Hen) as [t0 Ht0]. exists t0.
  split; [exact Ht0|]. cbn zeta.
  destruct (endGame_frame (ui sys) now) as (_ & _ & _ & _ & Est & Epl & _).
  unfold fire. cbn [ui enabled View.render View.start_button View.end_button].
  rewrite Epl, Est. repeat split; auto.
  intros H0. rewrite (endGame_recorded (ui sys) now t0 Ht0 H0). reflexivity.
Qed.

Lemma sorted_lookup {A} (R : A -> A -> Prop) (l : list A) (i j : nat) (a b : A) :
  StronglySorted R l -> (i < j)%nat -> l !! i = Some a -> l !! j = Some b -> R a b.
Proof.
  intros Hs. revert i j. induction Hs as [|x l Hs IH Hx]; intros i j Hij Hi Hj.
  - discriminate.
  - destruct j as [|j]; [lia|]. cbn in Hj. destruct i as [|i].
    + cbn in Hi. injection Hi as <-.
      rewrite List.Forall_forall in Hx. apply Hx.
      apply list_elem_of_In. eapply list_elem_of_lookup_2. exact Hj.
    + cbn in Hi. apply (IH i j); [lia | assumption..].
Qed.

(** X3. In every state the component can reach, the leaderboard rows are
    those of the stored entries in order, row [i] carrying rank [i + 1],
    and of two rows the one with the smaller rank never has the smaller
    score; the "no scores" note shows exactly when there is no row. *)
Theorem leaderboard_rows_ranked (cfg : option Auth.firebase_config) (sys : system) :
  reachable appId initialAuthToken cfg sys ->
  let v := View.render (ui sys) in
  (forall i r, View.rows v !! i = Some r <->
               exists e, leaderboardData (ui sys) !! i = Some e
                         /\ r = View.Row (i + 1) (entry_userId e) (entry_score e))
  /\ (forall i j r r', View.rows v !! i = Some r -> View.rows v !! j = Some r' ->
         (View.rank r < View.rank r')%nat -> View.row_score r' <= View.row_score r)
  /\ (View.no_scores_note v = true <-> View.rows v = []).
Proof.
  intros Hr. apply reachable_invariant in Hr.
  destruct Hr as (_ & _ & _ & _ & _ & Hsort & _).
  cbn zeta. unfold View.render. cbn [View.rows View.no_scores_note].
  assert (forall i r,
            imap (fun index e => View.Row (index + 1) (entry_userId e) (entry_score e))
                 (leaderboardData (ui sys)) !! i = Some r <->
            exists e, leaderboardData (ui sys) !! i = Some e
                      /\ r = View.Row (i + 1) (entry_userId e) (entry_score e)) as Hrows.
  { intros i r. rewrite list_lookup_imap.
    destruct (leaderboardData (ui sys) !! i) as [e|]; cbn.
    - split; [intros [= <-]; eauto | intros (e' & [= <-] & ->); reflexivity].
    - split; [discriminate | intros (e' & [=] & _)]. }
  split; [exact Hrows|]. split.
  - intros i j r r' Hi Hj Hlt.
    apply Hrows in Hi as (e & Hi & ->). apply Hrows in Hj as (e' & Hj & ->).
    cbn in *. apply (sorted_lookup _ _ i j e e' Hsort); [lia | assumption..].
  - destruct (leaderboardData (ui sys)); cbn; split; congruence.
Qed.

(** X4. Without a Firebase configuration the component stays a local game:
    in every state it can reach only Start and End clicks can happen, the
    Submit button is disabled, no identity or store handle is ever set, and
    the leaderboard stays empty. *)
Theorem no_config_only_game (sys : system) :
  reachable appId initialAuthToken None sys ->
  (forall ev, enabled sys ev = true ->
              exists now, ev = ClickStart now \/ ev = ClickEnd now)
  /\ View.submit_disabled (View.render (ui sys)) = true
  /\ View.user_text (View.render (ui sys)) = "Authenticating..."
  /\ db (ui sys) = None
  /\ userId (ui sys) = None
  /\ leaderboardData (ui sys) = [].
Proof.
  intros Hr. apply reachable_invariant in Hr.
  destruct Hr as (Hl & Hdb & _ & Huid & _ & _ & Hdata & _).
  cbn in Hl, Hdb.
  assert (userId (ui sys) = None) as Eu.
  { destruct (userId (ui sys)) as [uid|] eqn:Eu; [|reflexivity].
    destruct (Huid uid eq_refl) as [_ H]. congruence. }
  assert (Subscription.subscribes (ui sys) = false) as Esub
    by (unfold Subscription.subscribes; rewrite Hdb; reflexivity).
  split; [|repeat split].
  - intros ev Hen. destruct ev; cbn in Hen; eauto; try congruence.
    rewrite Eu in Hen. discriminate.
  - cbn. rewrite Eu. reflexivity.
  - cbn. rewrite Eu. reflexivity.
  - destruct (db (ui sys)); [discriminate | reflexivity].
  - exact Eu.
  - destruct (leaderboardData (ui sys)) eqn:Ed; [reflexivity|].
    rewrite Hdata in Esub; [discriminate | discriminate].
Qed.

(** X5. With a Firebase configuration, the leaderboard subscription is
    active exactly in the states in which an identity has been reported;
    a reported user switches it on at once, and an auth change with no user
    leaves it as it is. *)
Theorem subscription_follows_identity (c : Auth.firebase_config) (sys : system) :
  reachable appId initialAuthToken (Some c) sys ->
  (Subscription.subscribes (ui sys) = true <-> exists uid, userId (ui sys) = Some uid)
  /\ (forall user o, enabled sys (AuthState user o) = true)
  /\ (forall uid o,
        let sys' := fire appId initialAuthToken sys (AuthState (Some uid) o) in
        userId (ui sys') = Some uid /\ Subscription.subscribes (ui sys') = true)
  /\ (forall o,
        let sys' := fire appId initialAuthToken sys (AuthState None o) in
        userId (ui sys') = userId (ui sys)
        /\ Subscription.subscribes (ui sys') = Subscription.subscribes (ui sys)).
Proof.
  intros Hr. apply reachable_invariant in Hr.
  destruct Hr as (Hl & Hdb & _ & Huid & Hready & _).
  cbn in Hl, Hdb. unfold Subscription.subscribes.
  split; [|split; [|split]].
  - rewrite Hdb. cbn. split; [exact Hready|].
    intros [uid Hu]. apply (Huid uid Hu).
  - intros user o. exact Hl.
  - intros uid o. cbn zeta. unfold fire. cbn [ui].
    destruct (onAuthStateChanged_frame (ui sys) (Some uid) o)
      as (E1 & _ & _ & _ & _ & E6 & E7).
    rewrite E1, E6, E7, Hdb. split; reflexivity.
  - intros o. cbn zeta. unfold fire. cbn [ui].
    destruct (onAuthStateChanged_frame (ui sys) None o)
      as (E1 & _ & _ & _ & _ & E6 & E7).
    rewrite E1, E6, E7. split; reflexivity.
Qed.

(** X6. The score the component holds is at all times a multiple of 10. *)
Theorem score_always_multiple_of_ten (cfg : option Auth.firebase_config)
    (sys : system) :
  reachable appId initialAuthToken cfg sys ->
  (10 | View.score_text (View.render (ui sys))).
Proof.
  intros Hr. apply reachable_invariant in Hr.
  destruct Hr as (_ & _ & _ & _ & _ & _ & _ & Hscore). exact Hscore.
Qed.

End AppFacts.

Lemma enabled_submit_writes_witness :
  exists sys,
    App.run "app" None (App.boot App.sample_config) (firstn 3 App.sample_session) = Some sys
    /\ exists uid rest,
         userId (App.ui sys) = Some uid /\ uid <> "" /\ score (App.ui sys) <> 0
         /\ isPlaying (App.ui sys) = false
         /\ Submit.submitScore "app" (App.ui sys) Submit.Resolved
            = AddDoc (Submit.leaderboard_path "app") (NewDoc uid (score (App.ui sys))) :: rest
         /\ existsb is_store_write rest = false.
Proof.
  eexists. split; [reflexivity|].
  apply (enabled_submit_writes "app" None App.sample_config).
  - apply (run_reachable "app" None App.sample_config
             (firstn 3 App.sample_session) (App.boot App.sample_config));
      [apply App.reach_boot | reflexivity].
  - reflexivity.
Defined.

Lemma sample_reachable (n : nat) (sys : App.system) :
  App.run "app" None (App.boot App.sample_config) (firstn n App.sample_session)
  = Some sys ->
  App.reachable "app" None App.sample_config sys.
Proof.
  apply run_reachable, App.reach_boot.
Qed.

Lemma end_click_finds_start_time_witness :
  exists sys,
    App.run "app" None (App.boot App.sample_config) (firstn 2 App.sample_session)
    = Some sys
    /\ exists t0,
         startTime (App.ui sys) = Some t0
         /\ let sys' := App.fire "app" None sys (App.ClickEnd 1700000007400) in
            isPlaying (App.ui sys') = false
            /\ startTime (App.ui sys') = Some t0
            /\ (forall now', App.enabled sys' (App.ClickStart now') = true)
            /\ (forall now', App.enabled sys' (App.ClickEnd now') = false)
            /\ (t0 <> 0 -> score (App.ui sys') = (1700000007400 - t0) / 1000 * 10).
Proof.
  eexists. split; [reflexivity|].
  apply (end_click_finds_start_time "app" None App.sample_config).
  - apply (sample_reachable 2). reflexivity.
  - reflexivity.
Defined.

Lemma leaderboard_rows_ranked_witness :
  exists sys,
    App.run "app" None (App.boot App.sample_config) App.sample_session = Some sys
    /\ map View.rank (View.rows (View.render (App.ui sys))) = [1; 2; 3]%nat
    /\ map View.row_score (View.rows (View.render (App.ui sys))) = [90; 90; 50]
    /\ (forall i j r r',
          View.rows (View.render (App.ui sys)) !! i = Some r ->
          View.rows (View.render (App.ui sys)) !! j = Some r' ->
          (View.rank r < View.rank r')%nat -> View.row_score r' <= View.row_score r).
Proof.
  eexists. split; [reflexivity|]. split; [reflexivity|]. split; [reflexivity|].
  apply (leaderboard_rows_ranked "app" None App.sample_config).
  apply (sample_reachable 4). reflexivity.
Defined.

Lemma no_config_only_game_witness :
  exists sys,
    App.run "app" None (App.boot None) [ App.ClickStart 5; App.ClickEnd 2005 ] = Some sys
    /\ score (App.ui sys) = 20
    /\ View.submit_disabled (View.render (App.ui sys)) = true
    /\ message (App.ui sys) = "Game Over! Your score: 0. Submit to leaderboard!".
Proof.
  eexists. split; [reflexivity|]. split; [reflexivity|]. split; [|reflexivity].
  apply (no_config_only_game "app" None).
  apply (run_reachable "app" None None [ App.ClickStart 5; App.ClickEnd 2005 ]
           (App.boot None)); [apply App.reach_boot | reflexivity].
Defined.

Lemma subscription_follows_identity_witness :
  Subscription.subscribes (App.ui (App.boot App.sample_config)) = false
  /\ (let sys' := App.fire "app" None (App.boot App.sample_config)
                    (App.AuthState (Some "uid-1") Submit.Resolved) in
      userId (App.ui sys') = Some "uid-1"
      /\ Subscription.subscribes (App.ui sys') = true).
Proof.
  split; [reflexivity|].
  apply (subscription_follows_identity "app" None (Auth.FirebaseConfig "{}")
           (App.boot App.sample_config) (App.reach_boot "app" None App.sample_config)).
Defined.

Lemma score_always_multiple_of_ten_witness :
  exists sys,
    App.run "app" None (App.boot App.sample_config) App.sample_session = Some sys
    /\ score (App.ui sys) = 70
    /\ (10 | View.score_text (View.render (App.ui sys))).
Proof.
  eexists. split; [reflexivity|]. split; [reflexivity|].
  apply (score_always_multiple_of_ten "app" None App.sample_config).
  apply (sample_reachable 4). reflexivity.
Defined.

(** ** Gesture tracker: faulting samples and idle input *)

Section PointerFacts.
Import Js Gesture Pointer.
Local Open Scope float_scope.

(** X7. Move samples the handler faults on (a mouse sample with a
    coordinate 0, a touch sample with no touch point) are dropped whole:
    the drag ends in the state it would end in had they not been sent,
    with the last sample taken in as the stored position, and the angles
    are those the samples taken in add up to. *)
Theorem drag_skips_faulting_samples
    (st : state) (press release : event) (moves : list event) :
  let taken := List.filter accepted moves in
  let o := drag_origin st press in
  let st' := run_drag st press moves release in
  st' = run_drag st press taken release
  /\ previousMousePosition st' = last_taken moves o
  /\ rotation_y st' = turned x o (map position_of taken) (rotation_y st)
  /\ rotation_x st' = turned y o (map position_of taken) (rotation_x st)
  /\ isDragging st' = false
  /\ (forall e s, In e moves -> accepted e = false -> isDragging s = true ->
        dispatch (onMouseMove e) s = s
        /\ is_ok (outcome (onMouseMove e) s) = false).
Proof.
  cbn zeta.
  assert (run_drag st press moves release
          = run_drag st press (List.filter accepted moves) release) as Heq.
  { unfold run_drag. rewrite onMouseDown_arms.
    rewrite (moves_filter moves) by reflexivity. reflexivity. }
  assert (Forall (fun e => accepted e = true) (List.filter accepted moves)) as Hacc.
  { apply List.Forall_forall. intros e He. apply List.filter_In in He. tauto. }
  destruct (run_drag_accepted st press release _ Hacc) as (H1 & H2 & H3 & H4).
  rewrite <- Heq in H1, H2, H3, H4.
  split; [exact Heq|]. split; [exact H2|]. split; [exact H3|].
  split; [exact H4|]. split; [exact H1|].
  intros e s _ Ha Hd.
  destruct (onMouseMove_rejected e s Hd Ha) as (err & Herr & _).
  unfold dispatch, outcome. rewrite Herr. split; reflexivity.
Qed.

(** X8. A press the handler faults on still arms the drag: the dragging
    flag is set before the fault and the stored position is left as it was,
    so the moves that follow turn the group by their deltas from that stale
    position, not from the press. *)
Theorem faulting_press_arms_drag
    (st : state) (press release : event) (moves : list event) :
  accepted press = false ->
  is_ok (outcome (onMouseDown press) st) = false
  /\ dispatch (onMouseDown press) st = set_isDragging true st
  /\ let stale := previousMousePosition st in
     let taken := map position_of (List.filter accepted moves) in
     let st' := run_drag st press moves release in
     rotation_y st' = turned x stale taken (rotation_y st)
     /\ rotation_x st' = turned y stale taken (rotation_x st)
     /\ forall e, moves = [e] -> accepted e = true ->
          rotation_y st' = rotation_y st + (x (position_of e) - x stale) * rotationSpeed
          /\ rotation_x st' = rotation_x st + (y (position_of e) - y stale) * rotationSpeed.
Proof.
  intros Ha.
  destruct (onMouseDown_rejected press st Ha) as (err & Herr & _).
  split; [unfold outcome; rewrite Herr; reflexivity|].
  split; [unfold dispatch; rewrite Herr; reflexivity|].
  cbn zeta.
  assert (run_drag st press moves release
          = run_drag st press (List.filter accepted moves) release) as Heq.
  { unfold run_drag. rewrite onMouseDown_arms.
    rewrite (moves_filter moves) by reflexivity. reflexivity. }
  assert (Forall (fun e => accepted e = true) (List.filter accepted moves)) as Hacc.
  { apply List.Forall_forall. intros e He. apply List.filter_In in He. tauto. }
  destruct (run_drag_accepted st press release _ Hacc) as (_ & _ & H3 & H4).
  rewrite <- Heq in H3, H4.
  unfold drag_origin in H3, H4. rewrite Ha in H3, H4.
  split; [exact H3|]. split; [exact H4|].
  intros e -> He. cbn [List.filter] in H3, H4. rewrite He in H3, H4.
  cbn [map turned] in H3, H4. auto.
Qed.

(** X9. Without a press nothing turns: from a state with no drag active,
    any sequence of move and release events, faulting or not, leaves the
    orientation and the stored position exactly as they were. *)
Theorem idle_input_changes_nothing (st : state) (inputs : list input) :
  isDragging st = false ->
  Forall (fun i => is_down i = false) inputs ->
  play st inputs = st.
Proof.
  intros Hd Hin. induction Hin as [|i inputs Hi _ IH]; [reflexivity|].
  unfold play in *. cbn [fold_left].
  assert (deliver st i = st) as ->; [|exact IH].
  destruct i as [e | e | e]; [discriminate| |]; cbn.
  - unfold dispatch. rewrite (onMouseMove_idle e st Hd). reflexivity.
  - unfold dispatch, onMouseUp, assign, set_isDragging. cbn.
    rewrite <- Hd. destruct st. reflexivity.
Qed.

End PointerFacts.

Lemma drag_skips_faulting_samples_witness :
  let moves := [ Gesture.MouseEvent 0 100; Gesture.MouseEvent 104 0;
                 Gesture.MouseEvent 110 120; Gesture.TouchEvent [] ] in
  let st' := Gesture.run_drag Gesture.initial (Gesture.MouseEvent 100 100) moves
               (Gesture.MouseEvent 0 0) in
  st' = Gesture.run_drag Gesture.initial (Gesture.MouseEvent 100 100)
          [ Gesture.MouseEvent 110 120 ] (Gesture.MouseEvent 0 0)
  /\ Gesture.previousMousePosition st' = Gesture.Point 110 120
  /\ (Gesture.rotation_y st' = 0 + (110 - 100) * 0.005)%float
  /\ (Gesture.rotation_x st' = 0 + (120 - 100) * 0.005)%float.
Proof.
  cbn zeta.
  destruct (drag_skips_faulting_samples Gesture.initial (Gesture.MouseEvent 100 100)
              (Gesture.MouseEvent 0 0)
              [ Gesture.MouseEvent 0 100; Gesture.MouseEvent 104 0;
                Gesture.MouseEvent 110 120; Gesture.TouchEvent [] ])
    as (Heq & Hp & Hy & Hx & _).
  split; [exact Heq|]. split; [exact Hp|]. split; [exact Hy | exact Hx].
Defined.

Lemma faulting_press_arms_drag_witness :
  let st := Gesture.State false (Gesture.Point 400 300) 0 0 in
  let st' := Gesture.run_drag st (Gesture.MouseEvent 0 50)
               [ Gesture.MouseEvent 200 100; Gesture.MouseEvent 10 60 ]
               (Gesture.MouseEvent 10 60) in
  (Gesture.rotation_y st' = 0 + (200 - 400) * 0.005 + (10 - 200) * 0.005)%float
  /\ (Gesture.rotation_y st' = -1.9500000000000002)%float.
Proof.
  cbn zeta.
  destruct (faulting_press_arms_drag
              (Gesture.State false (Gesture.Point 400 300) 0 0)
              (Gesture.MouseEvent 0 50) (Gesture.MouseEvent 10 60)
              [ Gesture.MouseEvent 200 100; Gesture.MouseEvent 10 60 ] eq_refl)
    as (_ & _ & Hy & _).
  split; [exact Hy|]. rewrite Hy. vm_compute. reflexivity.
Defined.

Lemma idle_input_changes_nothing_witness :
  Pointer.play Gesture.initial
    [ Pointer.Moved (Gesture.MouseEvent 10 10); Pointer.Moved (Gesture.MouseEvent 0 7);
      Pointer.Up (Gesture.MouseEvent 3 3); Pointer.Moved (Gesture.TouchEvent []) ]
  = Gesture.initial.
Proof.
  apply (idle_input_changes_nothing Gesture.initial); [reflexivity|].
  repeat constructor.
Defined.

(** ** Geometry builder: the boxes of the cells *)

Section ExtentFacts.
Import Geometry Extent.
Local Open Scope Q_scope.

(** The two faces of a cell of the source across an axis. *)
Lemma source_faces (a : axis) (x y z : nat) :
  (x < 3)%nat -> (y < 3)%nat -> (z < 3)%nat ->
  let n := match a with AxisX => x | AxisY => y | AxisZ => z end in
  let c := cubelet_at source_cubeSize source_gap x y z in
  box_min a c == - ulp1 + (inject_Z (Z.of_nat n) - 1) * source_pitch - (1 # 2)
  /\ box_max a c == - ulp1 + (inject_Z (Z.of_nat n) - 1) * source_pitch + (1 # 2).
Proof.
  intros Hx Hy Hz. cbn zeta.
  destruct (source_centre a x y z Hx Hy Hz) as [Hc _].
  unfold box_min, box_max. rewrite Hc.
  destruct a; split; cbn [geometry cubelet_at side width height depth];
    apply Qplus_inj_l; vm_compute; reflexivity.
Qed.

(** On one axis: the boxes of cells at different grid coordinates are at
    least a gap apart. *)
Lemma source_axis_gap (n n' : nat) :
  (n < 3)%nat -> (n' < 3)%nat -> n <> n' ->
  let lo k := - ulp1 + (inject_Z (Z.of_nat k) - 1) * source_pitch - (1 # 2) in
  let hi k := - ulp1 + (inject_Z (Z.of_nat k) - 1) * source_pitch + (1 # 2) in
  hi n + exact source_gap <= lo n' \/ hi n' + exact source_gap <= lo n.
Proof.
  intros Hn Hn' Hne. cbn zeta.
  destruct n as [|[|[|n]]]; [ | | |lia];
    (destruct n' as [|[|[|n']]]; [ | | |lia]);
    try congruence;
    first [ left; vm_compute; discriminate | right; vm_compute; discriminate ].
Qed.

Lemma source_axis_bounds (n : nat) :
  (n < 3)%nat ->
  - source_extent / 2
    <= - ulp1 + (inject_Z (Z.of_nat n) - 1) * source_pitch - (1 # 2)
  /\ - ulp1 + (inject_Z (Z.of_nat n) - 1) * source_pitch + (1 # 2)
     <= source_extent / 2.
Proof.
  intros Hn.
  destruct n as [|[|[|n]]]; [ | | |lia]; split; vm_compute; discriminate.
Qed.

(** X11. In the cells the source builds, every cell's centre is a finite
    double, and its box has side 1 on each axis and lies inside the cube
    of side [totalCubeDim] (the double [3.1000000000000005]) centred on
    the origin.  The first cell touches the cube's low faces; the last
    cell stops [2^-51] short of its high faces, the roundings of the start
    position and of the products not cancelling. *)
Theorem cells_fill_the_cube :
  let D := source_extent in
  totalCubeDim source_cubeSize source_gap = 3.1000000000000005%float
  /\ startPos source_cubeSize source_gap = (-1.0500000000000003)%float
  /\ (forall i c a, source_cubelets !! i = Some c ->
        finite (coord a (position c)) = true
        /\ - D / 2 <= box_min a c /\ box_max a c <= D / 2
        /\ box_max a c - box_min a c == 1)
  /\ (exists c, source_cubelets !! 0%nat = Some c
                /\ forall a, box_min a c == - D / 2)
  /\ (exists c, source_cubelets !! 26%nat = Some c
                /\ forall a, box_max a c == D / 2 - 2 * ulp1).
Proof.
  cbn zeta. split; [vm_compute; reflexivity|]. split; [vm_compute; reflexivity|].
  split; [|split].
  - intros i c a Hi. unfold source_cubelets in Hi.
    apply cubelets_lookup in Hi as [Hi ->].
    destruct (index_coords i Hi) as (Hx & Hy & Hz & _).
    destruct (source_faces a _ _ _ Hx Hy Hz) as [Hlo Hhi].
    split; [apply (source_centre a _ _ _ Hx Hy Hz)|].
    rewrite Hlo, Hhi.
    assert (match a with AxisX => i / 9 | AxisY => i / 3 mod 3 | AxisZ => i mod 3 end < 3)%nat
      as Hn by (destruct a; assumption).
    destruct (source_axis_bounds _ Hn) as [Hb1 Hb2].
    split; [exact Hb1|]. split; [exact Hb2|]. ring.
  - exists (cubelet_at source_cubeSize source_gap 0 0 0). split; [reflexivity|].
    intros a. destruct a; vm_compute; reflexivity.
  - exists (cubelet_at source_cubeSize source_gap 2 2 2). split; [reflexivity|].
    intros a. destruct a; vm_compute; reflexivity.
Qed.

(** X12. In the cells the source builds, the boxes of two different cells
    never overlap: on some axis one ends at least a gap (the double
    [0.05]) before the other begins. *)
Theorem distinct_cells_do_not_overlap (i j : nat) (c c' : Mesh) :
  i <> j ->
  source_cubelets !! i = Some c ->
  source_cubelets !! j = Some c' ->
  exists a, box_max a c + exact source_gap <= box_min a c'
            \/ box_max a c' + exact source_gap <= box_min a c.
Proof.
  intros Hij Hi Hj. unfold source_cubelets in Hi, Hj.
  apply cubelets_lookup in Hi as [Hi ->].
  apply cubelets_lookup in Hj as [Hj ->].
  destruct (index_coords i Hi) as (Hx & Hy & Hz & _).
  destruct (index_coords j Hj) as (Hx' & Hy' & Hz' & _).
  destruct (index_differs i j Hi Hj Hij) as [H | [H | H]].
  - exists AxisX.
    destruct (source_faces AxisX _ _ _ Hx Hy Hz) as [-> ->].
    destruct (source_faces AxisX _ _ _ Hx' Hy' Hz') as [-> ->].
    apply (source_axis_gap _ _ Hx Hx' H).
  - exists AxisY.
    destruct (source_faces AxisY _ _ _ Hx Hy Hz) as [-> ->].
    destruct (source_faces AxisY _ _ _ Hx' Hy' Hz') as [-> ->].
    apply (source_axis_gap _ _ Hy Hy' H).
  - exists AxisZ.
    destruct (source_faces AxisZ _ _ _ Hx Hy Hz) as [-> ->].
    destruct (source_faces AxisZ _ _ _ Hx' Hy' Hz') as [-> ->].
    apply (source_axis_gap _ _ Hz Hz' H).
Qed.

End ExtentFacts.

Lemma distinct_cells_do_not_overlap_witness :
  exists a,
    (Extent.box_max a (Geometry.cubelet_at 1 0.05 0 0 0) + Geometry.exact 0.05
     <= Extent.box_min a (Geometry.cubelet_at 1 0.05 0 0 1))%Q
    \/ (Extent.box_max a (Geometry.cubelet_at 1 0.05 0 0 1) + Geometry.exact 0.05
        <= Extent.box_min a (Geometry.cubelet_at 1 0.05 0 0 0))%Q.
Proof.
  apply (distinct_cells_do_not_overlap 0 1); try reflexivity.
  discriminate.
Defined.

(** ** Scene host: the cleanup on any host *)

Section CleanupFacts.
Import Js Scene.

Lemma filter_twice {A} (f1 f2 : A -> bool) (l : list A) :
  List.filter f2 (List.filter f1 l) = List.filter (fun a => f1 a && f2 a) l.
Proof.
  induction l as [|a l IH]; [reflexivity|].
  cbn. destruct (f1 a); cbn; [destruct (f2 a)|]; rewrite IH; reflexivity.
Qed.

(** Removing the listeners [rs] one after the other leaves those that are
    none of them. *)
Lemma remove_all (rs ls : list listener) :
  fold_left (fun ls r => List.filter (fun l' => negb (bool_decide (l' = r))) ls) rs ls
  = List.filter (fun l' => negb (bool_decide (l' ∈ rs))) ls.
Proof.
  revert ls. induction rs as [|r rs IH]; intros ls.
  - cbn. induction ls as [|a ls IHl]; [reflexivity|].
    cbn. rewrite bool_decide_eq_false_2 by apply not_elem_of_nil.
    cbn. f_equal. exact IHl.
  - cbn [fold_left]. rewrite IH, filter_twice. apply List.filter_ext.
    intros a. rewrite <- negb_orb. f_equal.
    rewrite <- bool_decide_or. apply bool_decide_ext.
    rewrite elem_of_cons. tauto.
Qed.

Lemma log_all (cs0 cs : list call) :
  fold_left (fun acc c => (acc ++ [c])%list) cs cs0 = (cs0 ++ cs)%list.
Proof.
  revert cs0. induction cs as [|c cs IH]; intros cs0; cbn.
  - symmetry. apply app_nil_r.
  - rewrite IH, <- app_assoc. reflexivity.
Qed.

Lemma cleanup_runs (h : host) :
  cleanup closure_env h
  = if canvas_attached h then
      (Host (listeners (detached h)) false false (geometries_live h)
            (materials_live h) (scene_children h)
            (calls (detached h) ++ [ CRemoveChild; CDispose VRenderer ])%list,
       Throw (ReferenceError "geometry"))
    else (detached h, Throw not_a_child).
Proof.
  assert (closure_env !! "window" = Some VWindow) as Hw by (vm_compute; reflexivity).
  assert (closure_env !! "currentMount" = Some VElement) as Hm by (vm_compute; reflexivity).
  assert (closure_env !! "handleResize" = Some (VFunction handleResize)) as Hr
    by (vm_compute; reflexivity).
  assert (closure_env !! "onMouseDown" = Some (VFunction onMouseDown)) as Hd
    by (vm_compute; reflexivity).
  assert (closure_env !! "onMouseMove" = Some (VFunction onMouseMove)) as Hv
    by (vm_compute; reflexivity).
  assert (closure_env !! "onMouseUp" = Some (VFunction onMouseUp)) as Hu
    by (vm_compute; reflexivity).
  assert (closure_env !! "renderer" = Some VRenderer) as Hn by (vm_compute; reflexivity).
  assert (closure_env !! "geometry" = None) as Hg by (vm_compute; reflexivity).
  unfold cleanup, remove_listener, lookup.
  rewrite Hw, Hm, Hr, Hd, Hv, Hu, Hn, Hg.
  unfold detached. destruct h as [ls att live gs ms n cs].
  destruct att; cbn; rewrite <- ?app_assoc; reflexivity.
Qed.

(** X13. Run on any host, the cleanup of a mounted scene takes off exactly
    its own eight listeners and leaves every other listener in place and in
    order, and it faults before it releases a geometry, a material or the
    scene's children, which are left as the host holds them.  On a host
    that has the canvas in the container it detaches the canvas, disposes
    of the renderer and faults on [geometry]; on a host that has not,
    [removeChild] faults with [NotFoundError] and the renderer is left as
    it is. *)
Theorem cleanup_removes_only_its_listeners (h : host) :
  let (h', r) := cleanup closure_env h in
  listeners h' = List.filter (fun l => negb (bool_decide (l ∈ registered))) (listeners h)
  /\ geometries_live h' = geometries_live h
  /\ materials_live h' = materials_live h
  /\ scene_children h' = scene_children h
  /\ canvas_attached h' = false
  /\ if canvas_attached h then
       r = Throw (ReferenceError "geometry")
       /\ renderer_live h' = false
       /\ calls h' = (calls h ++ map CRemoveEventListener registered
                      ++ [ CRemoveChild; CDispose VRenderer ])%list
     else
       r = Throw not_a_child
       /\ renderer_live h' = renderer_live h
       /\ calls h' = (calls h ++ map CRemoveEventListener registered)%list.
Proof.
  rewrite cleanup_runs. unfold detached.
  destruct (canvas_attached h) eqn:Hatt;
    cbn [listeners canvas_attached renderer_live geometries_live materials_live
         scene_children calls];
    rewrite remove_all, log_all, <- ?app_assoc; repeat split; auto.
Qed.

End CleanupFacts.

(** ** Leaderboard sync: submit, sort *)

Section StoreFacts.
Import Submit Leaderboard.

(** X14. [submitScore] writes to the store exactly when a store handle is
    held, the identity is set and not empty, and the score is not 0; it then
    writes once, to [artifacts/<appId>/public/data/leaderboard], the current
    identity and score, and the status message reports success or carries
    the store's reason for the failure. *)
Theorem submitScore_writes_iff (appId : string) (s : app_state) (w : write_outcome) :
  let effs := submitScore appId s w in
  (existsb is_store_write effs = true <->
   db s <> None /\ (exists uid, userId s = Some uid /\ uid <> "") /\ score s <> 0)
  /\ (forall path d, AddDoc path d ∈ effs ->
        path = "artifacts/" +:+ appId +:+ "/public/data/leaderboard"
        /\ userId s = Some (doc_userId d) /\ doc_score d = score s
        /\ length (List.filter is_store_write effs) = 1%nat
        /\ message (commit s effs)
           = match w with
             | Resolved => "Score submitted successfully!"
             | Rejected m => "Failed to submit score: " +:+ m
             end).
Proof.
  cbn zeta. unfold submitScore.
  destruct (db s) as [d0|] eqn:Edb; cbn [Js.truthy_optobj negb orb].
  2:{ split.
      - split; [discriminate | intros (H & _); congruence].
      - intros path d Hin. apply list_elem_of_singleton in Hin. discriminate. }
  destruct (userId s) as [uid|] eqn:Eu; cbn [Js.truthy_optstring].
  2:{ split.
      - split; [discriminate | intros (_ & (uid & [=] & _) & _)].
      - intros path d Hin. apply list_elem_of_singleton in Hin. discriminate. }
  destruct (String.eqb uid "") eqn:Ee; cbn [negb orb].
  { apply String.eqb_eq in Ee. split.
    - split; [discriminate | intros (_ & (uid' & [= <-] & Hne) & _); congruence].
    - intros path d Hin. apply list_elem_of_singleton in Hin. discriminate. }
  apply String.eqb_neq in Ee.
  destruct (Z.eqb (score s) 0) eqn:Es.
  { apply Z.eqb_eq in Es. split.
    - split; [discriminate | intros (_ & _ & Hne); congruence].
    - intros path d Hin. apply list_elem_of_singleton in Hin. discriminate. }
  apply Z.eqb_neq in Es. split.
  - split; [|reflexivity]. intros _.
    split; [discriminate|]. split; [eauto | exact Es].
  - intros path d Hin.
    apply elem_of_cons in Hin as [[= -> ->] | Hin].
    + repeat split; destruct w; reflexivity.
    + destruct w; repeat (apply elem_of_cons in Hin as [[=] | Hin]);
        apply elem_of_nil in Hin; destruct Hin.
Qed.

(** X15. A list already in descending order of score is displayed as it
    is, ties included, and only such a list is; so sorting twice is sorting
    once. *)
Theorem array_sort_fixes_sorted (l : list entry) :
  (array_sort by_score_desc l = l <-> StronglySorted score_ge l)
  /\ array_sort by_score_desc (array_sort by_score_desc l) = array_sort by_score_desc l.
Proof.
  assert (forall l', StronglySorted score_ge l' -> array_sort by_score_desc l' = l')
    as Hfix.
  { intros l' Hs. apply sorted_stable_unique.
    - apply array_sort_sorted.
    - exact Hs.
    - intros v. apply array_sort_stable. }
  split.
  - split; [intros <-; apply array_sort_sorted | apply Hfix].
  - apply Hfix, array_sort_sorted.
Qed.

End StoreFacts.

(** ** Session controller: the score as a function of time *)

Section ScoreFacts.
Import Session.

(** The score a game started at [t0] shows after [endGame] at [now]. *)
Lemma played_score (s0 : app_state) (t0 now : Z) :
  t0 <> 0 ->
  let s1 := commit s0 (startGame t0) in
  score (commit s1 (endGame s1 now)) = (now - t0) / 1000 * 10.
Proof.
  intros Ht. cbn zeta.
  rewrite (endGame_recorded _ now t0); [reflexivity | reflexivity | exact Ht].
Qed.

(** X16. For a game started at [t0] (not 0) and ended at [now]: each whole
    second played is worth 10 points, so ending a second later adds exactly
    10 and ending later never lowers the score; the score is 0 or more when
    the clock has not gone back, and [-10] or less when it has, by however
    little. *)
Theorem score_counts_whole_seconds (s0 : app_state) (t0 now : Z) :
  t0 <> 0 ->
  let s1 := commit s0 (startGame t0) in
  let final t := score (commit s1 (endGame s1 t)) in
  final (now + 1000) = final now + 10
  /\ (forall later, now <= later -> final now <= final later)
  /\ (t0 <= now -> 0 <= final now)
  /\ (now < t0 -> final now <= -10)
  /\ (t0 <= now < t0 + 1000 -> final now = 0).
Proof.
  intros Ht. cbn beta zeta.
  rewrite !(played_score s0 t0) by exact Ht.
  split; [|split; [|split; [|split]]].
  - replace (now + 1000 - t0) with ((now - t0) + 1 * 1000) by lia.
    rewrite Z.div_add by lia. lia.
  - intros later Hl. rewrite (played_score s0 t0) by exact Ht.
    assert ((now - t0) / 1000 <= (later - t0) / 1000) by (apply Z.div_le_mono; lia).
    lia.
  - intros Hle. assert (0 <= (now - t0) / 1000) by (apply Z.div_pos; lia). lia.
  - intros Hlt. assert ((now - t0) / 1000 < 0) by (apply Z.div_lt_upper_bound; lia).
    lia.
  - intros Hin. rewrite Z.div_small by lia. reflexivity.
Qed.

(** X17. A game ended within its first second cannot be submitted: the
    score is 0, so the Submit button is disabled whatever the identity, and
    [submitScore], were it called, would write nothing. *)
Theorem short_game_cannot_be_submitted
    (appId : string) (s0 : app_state) (t0 now : Z) (w : Submit.write_outcome) :
  t0 <> 0 ->
  t0 <= now < t0 + 1000 ->
  let s1 := commit s0 (startGame t0) in
  let s2 := commit s1 (endGame s1 now) in
  score s2 = 0
  /\ View.submit_disabled (View.render s2) = true
  /\ View.start_button (View.render s2) = true
  /\ existsb is_store_write (Submit.submitScore appId s2 w) = false.
Proof.
  intros Ht Hin. cbn zeta.
  pose proof (played_score s0 t0 now Ht) as Hsc. cbn zeta in Hsc.
  rewrite Z.div_small in Hsc by lia. change (0 * 10) with 0 in Hsc.
  split; [exact Hsc|].
  set (s2 := commit (commit s0 (startGame t0)) (endGame (commit s0 (startGame t0)) now)) in *.
  split; [|split].
  - cbn [View.render View.submit_disabled]. rewrite Hsc.
    change (Z.eqb 0 0) with true. rewrite orb_true_r. reflexivity.
  - destruct (endGame_frame (commit s0 (startGame t0)) now)
      as (_ & _ & _ & _ & _ & Hp & _).
    cbn [View.render View.start_button]. fold s2 in Hp. rewrite Hp. reflexivity.
  - unfold Submit.submitScore. rewrite Hsc. change (Z.eqb 0 0) with true.
    rewrite orb_true_r. reflexivity.
Qed.

End ScoreFacts.

(** ** Authentication callback *)

Section AuthFacts.
Import Auth.

(** X18. The auth callback asks for a sign-in exactly when it is given no
    user, and then exactly once: with the custom token when one is
    configured and not empty, anonymously otherwise (an empty token counts
    as none).  A rejected sign-in surfaces as the status message with the
    provider's reason, and leaves the identity and the ready flag as they
    were. *)
Theorem auth_callback_signs_in_once
    (initialAuthToken user : option string) (o : Submit.write_outcome) (s : app_state) :
  let calls := onAuthStateChanged initialAuthToken user o in
  length (List.filter is_sign_in calls)
  = match user with Some _ => 0%nat | None => 1%nat end
  /\ (forall token, SignInWithCustomToken token ∈ calls <->
                    user = None /\ initialAuthToken = Some token /\ token <> "")
  /\ (SignInAnonymously ∈ calls <->
      user = None /\ (initialAuthToken = None \/ initialAuthToken = Some ""))
  /\ (user = None ->
      userId (commit_calls s calls) = userId s
      /\ isAuthReady (commit_calls s calls) = isAuthReady s
      /\ forall m, o = Submit.Rejected m ->
                   message (commit_calls s calls) = "Authentication error: " +:+ m).
Proof.
  cbn zeta. unfold onAuthStateChanged, after_sign_in.
  destruct user as [uid|].
  { split; [reflexivity|]. split; [|split].
    - intros token. split.
      + intros Hin. repeat (apply elem_of_cons in Hin as [[=] | Hin]).
        apply elem_of_nil in Hin. destruct Hin.
      + intros ([=] & _).
    - split.
      + intros Hin. repeat (apply elem_of_cons in Hin as [[=] | Hin]).
        apply elem_of_nil in Hin. destruct Hin.
      + intros ([=] & _).
    - discriminate. }
  destruct initialAuthToken as [token|]; cbn [Js.truthy_optstring].
  - destruct (String.eqb token "") eqn:Ee; cbn [negb].
    + apply String.eqb_eq in Ee. subst token.
      split; [destruct o; reflexivity|]. split; [|split].
      * intros token. split.
        -- intros Hin. destruct o;
             repeat (apply elem_of_cons in Hin as [[=] | Hin]);
             apply elem_of_nil in Hin; destruct Hin.
        -- intros (_ & [= <-] & Hne). congruence.
      * split; [auto|]. intros _. apply elem_of_cons. right.
        apply elem_of_cons. left. reflexivity.
      * intros _. destruct o; cbn; repeat split; try discriminate.
        intros m' [= ->]. reflexivity.
    + apply String.eqb_neq in Ee.
      split; [destruct o; reflexivity|]. split; [|split].
      * intros token'. split.
        -- intros Hin. destruct o;
             repeat (apply elem_of_cons in Hin as [[=] | Hin]);
             try (apply elem_of_nil in Hin; destruct Hin); subst; auto.
        -- intros (_ & [= <-] & _). apply elem_of_cons. right.
           apply elem_of_cons. left. reflexivity.
      * split.
        -- intros Hin. destruct o;
             repeat (apply elem_of_cons in Hin as [[=] | Hin]);
             apply elem_of_nil in Hin; destruct Hin.
        -- intros (_ & [[=] | [= ->]]). congruence.
      * intros _. destruct o; cbn; repeat split; try discriminate.
        intros m' [= ->]. reflexivity.
  - split; [destruct o; reflexivity|]. split; [|split].
    + intros token. split.
      * intros Hin. destruct o;
          repeat (apply elem_of_cons in Hin as [[=] | Hin]);
          apply elem_of_nil in Hin; destruct Hin.
      * intros (_ & [=] & _).
    + split; [auto|]. intros _. apply elem_of_cons. right.
      apply elem_of_cons. left. reflexivity.
    + intros _. destruct o; cbn; repeat split; try discriminate.
      intros m' [= ->]. reflexivity.
Qed.

End AuthFacts.

Lemma score_counts_whole_seconds_witness :
  let s1 := commit initial_state (Session.startGame 1700000000000) in
  let final t := score (commit s1 (Session.endGame s1 t)) in
  final (1700000007400 + 1000) = final 1700000007400 + 10
  /\ final 1700000007400 = 70
  /\ final 1699999999999 = -10.
Proof.
  cbn zeta.
  destruct (score_counts_whole_seconds initial_state 1700000000000 1700000007400)
    as (H1 & _); [lia|].
  split; [exact H1|]. split; reflexivity.
Defined.

Lemma short_game_cannot_be_submitted_witness :
  let s0 := AppState (Some Firestore) (Some "uid-1") true [] 0 None false "" in
  let s1 := commit s0 (Session.startGame 1700000000000) in
  let s2 := commit s1 (Session.endGame s1 1700000000999) in
  score s2 = 0
  /\ View.submit_disabled (View.render s2) = true
  /\ View.start_button (View.render s2) = true
  /\ existsb is_store_write (Submit.submitScore "app" s2 Submit.Resolved) = false.
Proof.
  apply (short_game_cannot_be_submitted "app"
           (AppState (Some Firestore) (Some "uid-1") true [] 0 None false "")
           1700000000000 1700000000999 Submit.Resolved); lia.
Defined.
